(** * BlockchainIntegration: the provenance transaction integration layer

    A shallow embedding of [backend/src/core/BlockchainIntegration.ts].

    The class builds a signed [Transaction] for each of the three product
    events (creation, transfer, verification), hands it to the registered
    ledger handler and, when the ledger accepts it, mirrors the event in
    the transaction history service.

    Every method of the class is an [async] function wrapped in a
    [try]/[catch].  It is embedded here in a state-and-exception monad
    over a [World] that holds the history store, the list of calls made
    to the two collaborators and the console.  State survives an
    exception, as the side effects of JavaScript code do. *)

From Stdlib Require Import String List ZArith Lia.
From Stdlib Require Import DecimalString.
Import ListNotations.
Local Open Scope list_scope.
Local Open Scope string_scope.

#[local] Set Warnings "-register-all".

(** ** Values of type [any]

    [productData] and [details] are declared [any]; they arrive as parsed
    request bodies.  Numbers are kept to the integer-valued ones. *)

Inductive JSValue : Type :=
| JUndefined
| JNull
| JBool (b : bool)
| JNumber (z : Z)
| JString (s : string)
| JArray (items : list JSValue)
| JObject (fields : list (string * JSValue)).

(** JavaScript truthiness, as used by [||], [&&] and [if]. *)
Definition truthy (v : JSValue) : bool :=
  match v with
  | JUndefined | JNull => false
  | JBool b => b
  | JNumber z => negb (Z.eqb z 0)
  | JString s => negb (String.eqb s "")
  | JArray _ | JObject _ => true
  end.

Fixpoint lookup_field (k : string) (fields : list (string * JSValue))
  : option JSValue :=
  match fields with
  | [] => None
  | (k', v) :: rest => if String.eqb k k' then Some v else lookup_field k rest
  end.

(** ** Outcomes of a call: a value, or a thrown exception *)

Definition exn := string.

Inductive outcome (A : Type) : Type :=
| Returns (a : A)
| Throws (e : exn).
Arguments Returns {A} a.
Arguments Throws {A} e.

(** [v.k]: reading a property of [undefined] or [null] throws a
    [TypeError]; a missing property reads as [undefined]. *)
Definition get_property (v : JSValue) (k : string) : outcome JSValue :=
  match v with
  | JUndefined =>
      Throws ("TypeError: Cannot read properties of undefined (reading '"
              ++ k ++ "')")
  | JNull =>
      Throws ("TypeError: Cannot read properties of null (reading '"
              ++ k ++ "')")
  | JObject fields =>
      Returns (match lookup_field k fields with
               | Some x => x
               | None => JUndefined
               end)
  | JBool _ | JNumber _ | JString _ | JArray _ => Returns JUndefined
  end.

(** [a || b] *)
Definition js_or (a b : JSValue) : JSValue := if truthy a then a else b.

(** ** Transactions *)

(** The [data] object of a transaction, one shape per event kind. *)
Inductive TransactionData : Type :=
| PRODUCT_CREATE (productId : string) (details : JSValue)
| PRODUCT_TRANSFER (productId fromUserId toUserId : string)
                   (details : JSValue)
| PRODUCT_VERIFICATION (productId verifierId : string)
                       (verificationPassed : bool) (details : JSValue).

(** [to] is whatever the caller of [new Transaction] passes; for a
    transfer it may come out of the untyped [details]. *)
Record Transaction : Type := mkTransaction {
  tx_from : string;
  tx_to : JSValue;
  tx_data : TransactionData;
  tx_signature : option string
}.

(** [new Transaction({from, to, data})] *)
Definition new_Transaction (from : string) (to : JSValue)
  (data : TransactionData) : Transaction :=
  {| tx_from := from; tx_to := to; tx_data := data; tx_signature := None |}.

(** [UserRole] is a string enum declared in [../enum]; at run time a
    role is a string. *)
Definition UserRole := string.

(** ** The transaction history service, as this class sees it *)

(** What the three recording methods resolve to. *)
Record HistoryResult : Type := mkHistoryResult {
  hr_success : bool;
  hr_transactionId : option string
}.

(** [historyResult.success && historyResult.transactionId] taken as a
    condition: the identifier has to be present and non-empty. *)
Definition history_recorded (r : HistoryResult) : option string :=
  if hr_success r then
    match hr_transactionId r with
    | Some id => if String.eqb id "" then None else Some id
    | None => None
    end
  else None.

(** The ledger part of a history record. *)
Record BlockchainInfo : Type := mkBlockchainInfo {
  bi_blockHash : string;
  bi_transactionHash : option string
}.

(** Modelled from the spec: [TransactionRecord] is declared in
    [./TransactionHistory], which is not part of the sources at hand.  A
    history record is identified by a transaction identifier and carries
    an optional ledger part. *)
Record TransactionRecord : Type := mkTransactionRecord {
  tr_id : string;
  tr_productId : string;
  tr_fromUserId : string;
  tr_toUserId : string;
  tr_actionType : string;
  tr_details : JSValue;
  tr_blockchain : option BlockchainInfo
}.

(** ** Collaborators

    [getKeyPair], the [Transaction] class and [TransactionHistoryService]
    are imported by the file; their behaviour is a parameter of the
    development.  Any of their calls may throw. *)
Record Collaborators : Type := mkCollaborators {
  KeyPair : Type;
  Store : Type;
  (** [getKeyPair(privateKey)] *)
  getKeyPair : string -> outcome KeyPair;
  (** [keyPair.getPublic("hex")] *)
  getPublic : KeyPair -> string;
  (** the signature [transaction.sign(keyPair)] stores *)
  signature_for : KeyPair -> Transaction -> outcome string;
  (** [transaction.getHash()] *)
  getHash : Transaction -> outcome string;
  (** [TransactionHistoryService.recordProductCreation] *)
  hs_recordProductCreation :
    string -> string -> JSValue -> Store -> outcome HistoryResult * Store;
  (** [TransactionHistoryService.recordProductTransfer] *)
  hs_recordProductTransfer :
    string -> string -> UserRole -> string -> UserRole -> JSValue ->
    Store -> outcome HistoryResult * Store;
  (** [TransactionHistoryService.recordProductVerification] *)
  hs_recordProductVerification :
    string -> string -> UserRole -> bool -> JSValue ->
    Store -> outcome HistoryResult * Store;
  (** [TransactionHistoryService.getTransaction] *)
  hs_getTransaction : string -> Store -> outcome (option TransactionRecord)
}.

(** Modelled from the spec: [Transaction.sign] lives in [../transaction],
    which is not part of the sources at hand.  Signing stores a signature
    in the transaction and leaves the other fields alone. *)
Definition Transaction_sign (C : Collaborators) (kp : KeyPair C)
  (tx : Transaction) : outcome Transaction :=
  match signature_for C kp tx with
  | Returns s =>
      Returns {| tx_from := tx_from tx; tx_to := tx_to tx;
                 tx_data := tx_data tx; tx_signature := Some s |}
  | Throws e => Throws e
  end.

(** ** The world a call runs in *)

(** Calls made to the ledger handler and to the history service. *)
Inductive Call : Type :=
| CallHandler (tx : Transaction)
| CallRecordCreation (productId userId : string) (details : JSValue)
| CallRecordTransfer (productId fromUserId : string) (fromRole : UserRole)
                     (toUserId : string) (toRole : UserRole)
                     (details : JSValue)
| CallRecordVerification (productId verifierId : string)
                         (verifierRole : UserRole) (passed : bool)
                         (details : JSValue)
| CallGetTransaction (transactionId : string).

Inductive LogLine : Type :=
| ConsoleLog (msg : string)
| ConsoleError (msg : string) (error : option exn).

Record World (C : Collaborators) : Type := mkWorld {
  store : Store C;
  calls : list Call;
  console : list LogLine
}.
Arguments store {C} w.
Arguments calls {C} w.
Arguments console {C} w.

Definition is_history_write (c : Call) : bool :=
  match c with
  | CallRecordCreation _ _ _
  | CallRecordTransfer _ _ _ _ _ _
  | CallRecordVerification _ _ _ _ _ => true
  | CallHandler _ | CallGetTransaction _ => false
  end.

Definition is_handler_call (c : Call) : bool :=
  match c with
  | CallHandler _ => true
  | _ => false
  end.

Definition history_writes (cs : list Call) : list Call :=
  filter is_history_write cs.

Definition handler_calls (cs : list Call) : list Call :=
  filter is_handler_call cs.

(** ** The monad *)

Module Async.
Section Monad.
Variable C : Collaborators.

Definition M (A : Type) : Type := World C -> outcome A * World C.

Definition ret {A} (a : A) : M A := fun w => (Returns a, w).

Definition throw {A} (e : exn) : M A := fun w => (Throws e, w).

Definition bind {A B} (m : M A) (k : A -> M B) : M B :=
  fun w =>
    match m w with
    | (Returns a, w') => k a w'
    | (Throws e, w') => (Throws e, w')
    end.

(** [try { body } catch (error) { handler }] *)
Definition try_catch {A} (body : M A) (handler : exn -> M A) : M A :=
  fun w =>
    match body w with
    | (Returns a, w') => (Returns a, w')
    | (Throws e, w') => handler e w'
    end.

Definition lift {A} (o : outcome A) : M A := fun w => (o, w).

Definition record_call (c : Call) : M unit :=
  fun w => (Returns tt,
            {| store := store w; calls := (calls w ++ [c])%list;
               console := console w |}).

Definition console_log (msg : string) : M unit :=
  fun w => (Returns tt,
            {| store := store w; calls := calls w;
               console := (console w ++ [ConsoleLog msg])%list |}).

Definition console_error (msg : string) (error : option exn) : M unit :=
  fun w => (Returns tt,
            {| store := store w; calls := calls w;
               console := (console w ++ [ConsoleError msg error])%list |}).

(** A call into the history service that may change the store. *)
Definition on_store {A} (f : Store C -> outcome A * Store C) : M A :=
  fun w =>
    let (r, s) := f (store w) in
    (r, {| store := s; calls := calls w; console := console w |}).

(** A call into the history service that only reads the store. *)
Definition read_store {A} (f : Store C -> outcome A) : M A :=
  fun w => (f (store w), w).
End Monad.
End Async.

Import Async.

Declare Scope async_scope.
Delimit Scope async_scope with async.
Notation "x <- m ;; k" := (bind _ m (fun x => k))
  (at level 61, m at next level, right associativity) : async_scope.
Notation "m ;;; k" := (bind _ m (fun _ => k))
  (at level 61, right associativity) : async_scope.
Local Open Scope async_scope.

(** ** The class *)

(** The result type of the three public methods,
    [{ success: boolean; transactionHash?: string; blockHash?: string }]. *)
Record Result : Type := mkResult {
  success : bool;
  transactionHash : option string;
  blockHash : option string
}.

(** [{ success: false }] *)
Definition failure : Result :=
  {| success := false; transactionHash := None; blockHash := None |}.

(** [{ success: true, transactionHash: h }] *)
Definition accepted (h : string) : Result :=
  {| success := true; transactionHash := Some h; blockHash := None |}.

(** A ledger handler, [(transaction: Transaction) => Promise<boolean>];
    the promise may reject. *)
Definition Handler := Transaction -> outcome bool.

(** The instance: its only field is [transactionHandler], [null] until a
    handler is set. *)
Record BlockchainIntegration : Type := mkBlockchainIntegration {
  transactionHandler : option Handler
}.

(** The state of a fresh instance. *)
Definition new_BlockchainIntegration : BlockchainIntegration :=
  {| transactionHandler := None |}.

Definition setTransactionHandler (handler : Handler)
  (this : BlockchainIntegration) : BlockchainIntegration :=
  {| transactionHandler := Some handler |}.

Section Methods.
Variable C : Collaborators.
Variable this : BlockchainIntegration.

(** [await handler(transaction)], noted in the list of calls. *)
Definition await_handler (handler : Handler) (tx : Transaction)
  : M C bool :=
  record_call C (CallHandler tx) ;;; lift C (handler tx).

Definition await_recordProductCreation
  (productId fromUserId : string) (productData : JSValue)
  : M C HistoryResult :=
  record_call C (CallRecordCreation productId fromUserId productData) ;;;
  on_store C (hs_recordProductCreation C productId fromUserId productData).

Definition await_recordProductTransfer
  (productId fromUserId : string) (fromRole : UserRole)
  (toUserId : string) (toRole : UserRole) (details : JSValue)
  : M C HistoryResult :=
  record_call C (CallRecordTransfer productId fromUserId fromRole
                                    toUserId toRole details) ;;;
  on_store C (hs_recordProductTransfer C productId fromUserId fromRole
                                       toUserId toRole details).

Definition await_recordProductVerification
  (productId verifierId : string) (verifierRole : UserRole)
  (passed : bool) (details : JSValue) : M C HistoryResult :=
  record_call C (CallRecordVerification productId verifierId verifierRole
                                        passed details) ;;;
  on_store C (hs_recordProductVerification C productId verifierId
                                           verifierRole passed details).

Definition await_getTransaction (transactionId : string)
  : M C (option TransactionRecord) :=
  record_call C (CallGetTransaction transactionId) ;;;
  read_store C (hs_getTransaction C transactionId).

(** [updateTransactionWithBlockchainInfo] *)
Definition updateTransactionWithBlockchainInfo
  (transactionId blockHash transactionHash : string) : M C unit :=
  try_catch C
    (txRecord <- await_getTransaction transactionId ;;
     match txRecord with
     | Some _ =>
         console_log C ("Updating transaction " ++ transactionId
                        ++ " with blockchain data") ;;;
         console_log C ("Block hash: " ++ blockHash
                        ++ ", Transaction hash: " ++ transactionHash)
     | None =>
         console_error C ("Transaction " ++ transactionId
                          ++ " not found for blockchain update") None
     end)
    (fun error =>
       console_error C ("Error updating blockchain info for transaction "
                        ++ transactionId ++ ":") (Some error)).

(** [recordProductCreation] *)
Definition recordProductCreation
  (productId fromUserId privateKey : string) (productData : JSValue)
  : M C Result :=
  try_catch C
    (keyPair <- lift C (getKeyPair C privateKey) ;;
     let fromPublicKey := getPublic C keyPair in
     let transaction :=
       new_Transaction fromPublicKey (JString fromPublicKey)
         (PRODUCT_CREATE productId productData) in
     transaction <- lift C (Transaction_sign C keyPair transaction) ;;
     match transactionHandler this with
     | Some handler =>
         isValid <- await_handler handler transaction ;;
         if isValid then
           historyResult <-
             await_recordProductCreation productId fromUserId productData ;;
           match history_recorded historyResult with
           | Some transactionId =>
               h <- lift C (getHash C transaction) ;;
               updateTransactionWithBlockchainInfo
                 transactionId "pending" h ;;;
               h' <- lift C (getHash C transaction) ;;
               ret C (accepted h')
           | None => ret C failure
           end
         else ret C failure
     | None => ret C failure
     end)
    (fun error =>
       console_error C "Error recording product creation to blockchain:"
                     (Some error) ;;;
       ret C failure).

(** [recordProductTransfer] *)
Definition recordProductTransfer
  (productId fromUserId toUserId : string) (fromRole toRole : UserRole)
  (privateKey : string) (details : JSValue) : M C Result :=
  try_catch C
    (keyPair <- lift C (getKeyPair C privateKey) ;;
     let fromPublicKey := getPublic C keyPair in
     supplied <- lift C (get_property details "toPublicKey") ;;
     let toPublicKey :=
       js_or supplied (JString ("default_public_key_for_" ++ toUserId)) in
     let transaction :=
       new_Transaction fromPublicKey toPublicKey
         (PRODUCT_TRANSFER productId fromUserId toUserId details) in
     transaction <- lift C (Transaction_sign C keyPair transaction) ;;
     match transactionHandler this with
     | Some handler =>
         isValid <- await_handler handler transaction ;;
         if isValid then
           historyResult <-
             await_recordProductTransfer productId fromUserId fromRole
                                         toUserId toRole details ;;
           match history_recorded historyResult with
           | Some transactionId =>
               h <- lift C (getHash C transaction) ;;
               updateTransactionWithBlockchainInfo
                 transactionId "pending" h ;;;
               h' <- lift C (getHash C transaction) ;;
               ret C (accepted h')
           | None => ret C failure
           end
         else ret C failure
     | None => ret C failure
     end)
    (fun error =>
       console_error C "Error recording product transfer to blockchain:"
                     (Some error) ;;;
       ret C failure).

(** [recordProductVerification] *)
Definition recordProductVerification
  (productId verifierId : string) (verifierRole : UserRole)
  (privateKey : string) (passed : bool) (details : JSValue) : M C Result :=
  try_catch C
    (keyPair <- lift C (getKeyPair C privateKey) ;;
     let fromPublicKey := getPublic C keyPair in
     let transaction :=
       new_Transaction fromPublicKey (JString fromPublicKey)
         (PRODUCT_VERIFICATION productId verifierId passed details) in
     transaction <- lift C (Transaction_sign C keyPair transaction) ;;
     match transactionHandler this with
     | Some handler =>
         isValid <- await_handler handler transaction ;;
         if isValid then
           historyResult <-
             await_recordProductVerification productId verifierId
                                             verifierRole passed details ;;
           match history_recorded historyResult with
           | Some transactionId =>
               h <- lift C (getHash C transaction) ;;
               updateTransactionWithBlockchainInfo
                 transactionId "pending" h ;;;
               h' <- lift C (getHash C transaction) ;;
               ret C (accepted h')
           | None => ret C failure
           end
         else ret C failure
     | None => ret C failure
     end)
    (fun error =>
       console_error C
         "Error recording product verification to blockchain:"
         (Some error) ;;;
       ret C failure).
End Methods.

(** ** The three public operations, as one type *)

Inductive Operation : Type :=
| ProductCreation (productId fromUserId privateKey : string)
                  (productData : JSValue)
| ProductTransfer (productId fromUserId toUserId : string)
                  (fromRole toRole : UserRole) (privateKey : string)
                  (details : JSValue)
| ProductVerification (productId verifierId : string)
                      (verifierRole : UserRole) (privateKey : string)
                      (passed : bool) (details : JSValue).

(** A call of a public method on the instance [this]. *)
Definition invoke (C : Collaborators) (this : BlockchainIntegration)
  (op : Operation) : M C Result :=
  match op with
  | ProductCreation productId fromUserId privateKey productData =>
      recordProductCreation C this productId fromUserId privateKey
                            productData
  | ProductTransfer productId fromUserId toUserId fromRole toRole
                    privateKey details =>
      recordProductTransfer C this productId fromUserId toUserId
                            fromRole toRole privateKey details
  | ProductVerification productId verifierId verifierRole privateKey
                        passed details =>
      recordProductVerification C this productId verifierId verifierRole
                                privateKey passed details
  end.

(** The calls a computation adds to the list of calls. *)
Definition calls_made {C : Collaborators} {A : Type} (m : M C A)
  (w : World C) : list Call :=
  skipn (length (calls w)) (calls (snd (m w))).

(** The lines a computation adds to the console. *)
Definition logged {C : Collaborators} {A : Type} (m : M C A)
  (w : World C) : list LogLine :=
  skipn (length (console w)) (console (snd (m w))).

(** ** The common protocol

    The three methods differ in the transaction they build, in the
    history method they call and in the message of their [catch] block.
    The definitions below name these three parts; [invoke_protocol]
    shows that every method is the same protocol over them. *)

Section Protocol.
Variable C : Collaborators.

(** The key pair and the transaction as [new Transaction] builds it. *)
Definition constructed (op : Operation)
  : outcome (KeyPair C * Transaction) :=
  match op with
  | ProductCreation productId _ privateKey productData =>
      match getKeyPair C privateKey with
      | Returns keyPair =>
          Returns (keyPair,
                   new_Transaction (getPublic C keyPair)
                     (JString (getPublic C keyPair))
                     (PRODUCT_CREATE productId productData))
      | Throws e => Throws e
      end
  | ProductTransfer productId fromUserId toUserId _ _ privateKey details =>
      match getKeyPair C privateKey with
      | Returns keyPair =>
          match get_property details "toPublicKey" with
          | Returns supplied =>
              Returns (keyPair,
                       new_Transaction (getPublic C keyPair)
                         (js_or supplied
                            (JString ("default_public_key_for_"
                                      ++ toUserId)))
                         (PRODUCT_TRANSFER productId fromUserId toUserId
                                           details))
          | Throws e => Throws e
          end
      | Throws e => Throws e
      end
  | ProductVerification productId verifierId _ privateKey passed details =>
      match getKeyPair C privateKey with
      | Returns keyPair =>
          Returns (keyPair,
                   new_Transaction (getPublic C keyPair)
                     (JString (getPublic C keyPair))
                     (PRODUCT_VERIFICATION productId verifierId passed
                                           details))
      | Throws e => Throws e
      end
  end.

(** The signed transaction, the one the handler is given. *)
Definition submitted (op : Operation) : outcome Transaction :=
  match constructed op with
  | Returns (keyPair, transaction) => Transaction_sign C keyPair transaction
  | Throws e => Throws e
  end.

(** The history method of an operation, applied to its arguments. *)
Definition history_method (op : Operation)
  : Store C -> outcome HistoryResult * Store C :=
  match op with
  | ProductCreation productId fromUserId _ productData =>
      hs_recordProductCreation C productId fromUserId productData
  | ProductTransfer productId fromUserId toUserId fromRole toRole _
                    details =>
      hs_recordProductTransfer C productId fromUserId fromRole toUserId
                               toRole details
  | ProductVerification productId verifierId verifierRole _ passed
                        details =>
      hs_recordProductVerification C productId verifierId verifierRole
                                   passed details
  end.

(** The entry that call leaves in the list of calls. *)
Definition history_call (op : Operation) : Call :=
  match op with
  | ProductCreation productId fromUserId _ productData =>
      CallRecordCreation productId fromUserId productData
  | ProductTransfer productId fromUserId toUserId fromRole toRole _
                    details =>
      CallRecordTransfer productId fromUserId fromRole toUserId toRole
                         details
  | ProductVerification productId verifierId verifierRole _ passed
                        details =>
      CallRecordVerification productId verifierId verifierRole passed
                             details
  end.

(** The message of the [catch] block. *)
Definition catch_message (op : Operation) : string :=
  match op with
  | ProductCreation _ _ _ _ =>
      "Error recording product creation to blockchain:"
  | ProductTransfer _ _ _ _ _ _ _ =>
      "Error recording product transfer to blockchain:"
  | ProductVerification _ _ _ _ _ _ =>
      "Error recording product verification to blockchain:"
  end.

Variable this : BlockchainIntegration.

(** What follows a successful history write. *)
Definition reconcile (transaction : Transaction) (transactionId : string)
  : M C Result :=
  h <- lift C (getHash C transaction) ;;
  updateTransactionWithBlockchainInfo C transactionId "pending" h ;;;
  h' <- lift C (getHash C transaction) ;;
  ret C (accepted h').

(** What follows signing. *)
Definition submit (op : Operation) (transaction : Transaction)
  : M C Result :=
  match transactionHandler this with
  | Some handler =>
      isValid <- await_handler C handler transaction ;;
      if isValid then
        historyResult <-
          (record_call C (history_call op) ;;;
           on_store C (history_method op)) ;;
        match history_recorded historyResult with
        | Some transactionId => reconcile transaction transactionId
        | None => ret C failure
        end
      else ret C failure
  | None => ret C failure
  end.

Definition protocol (op : Operation) : M C Result :=
  try_catch C
    (transaction <- lift C (submitted op) ;; submit op transaction)
    (fun error =>
       console_error C (catch_message op) (Some error) ;;; ret C failure).
End Protocol.

(** The world after a call: the store it leaves, the calls and the
    console lines it adds. *)
Definition extend {C : Collaborators} (w : World C) (s : Store C)
  (cs : list Call) (ls : list LogLine) : World C :=
  {| store := s;
     calls := (calls w ++ cs)%list;
     console := (console w ++ ls)%list |}.

(** What [updateTransactionWithBlockchainInfo] prints, by what
    [getTransaction] does. *)
Definition reconciliation_log (transactionId blockHash transactionHash : string)
  (found : outcome (option TransactionRecord)) : list LogLine :=
  match found with
  | Returns (Some _) =>
      [ConsoleLog ("Updating transaction " ++ transactionId
                   ++ " with blockchain data");
       ConsoleLog ("Block hash: " ++ blockHash
                   ++ ", Transaction hash: " ++ transactionHash)]
  | Returns None =>
      [ConsoleError ("Transaction " ++ transactionId
                     ++ " not found for blockchain update") None]
  | Throws e =>
      [ConsoleError ("Error updating blockchain info for transaction "
                     ++ transactionId ++ ":") (Some e)]
  end.

(** ** The paths of a call

    [Path C this op w r s cs ls]: called in world [w], the operation
    [op] returns [r], leaves the store [s], makes the calls [cs] and
    prints the lines [ls].  One constructor per way through the method. *)

Inductive Path (C : Collaborators) (this : BlockchainIntegration)
  (op : Operation) (w : World C)
  : Result -> Store C -> list Call -> list LogLine -> Prop :=
| NotSubmitted (e : exn) :
    submitted C op = Throws e ->
    Path C this op w failure (store w) []
         [ConsoleError (catch_message op) (Some e)]
| NoHandler (tx : Transaction) :
    submitted C op = Returns tx ->
    transactionHandler this = None ->
    Path C this op w failure (store w) [] []
| Rejected (handler : Handler) (tx : Transaction) :
    submitted C op = Returns tx ->
    transactionHandler this = Some handler ->
    handler tx = Returns false ->
    Path C this op w failure (store w) [CallHandler tx] []
| HandlerThrows (handler : Handler) (tx : Transaction) (e : exn) :
    submitted C op = Returns tx ->
    transactionHandler this = Some handler ->
    handler tx = Throws e ->
    Path C this op w failure (store w) [CallHandler tx]
         [ConsoleError (catch_message op) (Some e)]
| WriteThrows (handler : Handler) (tx : Transaction) (e : exn)
    (s : Store C) :
    submitted C op = Returns tx ->
    transactionHandler this = Some handler ->
    handler tx = Returns true ->
    history_method C op (store w) = (Throws e, s) ->
    Path C this op w failure s [CallHandler tx; history_call op]
         [ConsoleError (catch_message op) (Some e)]
| NotRecorded (handler : Handler) (tx : Transaction) (hr : HistoryResult)
    (s : Store C) :
    submitted C op = Returns tx ->
    transactionHandler this = Some handler ->
    handler tx = Returns true ->
    history_method C op (store w) = (Returns hr, s) ->
    history_recorded hr = None ->
    Path C this op w failure s [CallHandler tx; history_call op] []
| HashThrows (handler : Handler) (tx : Transaction) (hr : HistoryResult)
    (s : Store C) (transactionId : string) (e : exn) :
    submitted C op = Returns tx ->
    transactionHandler this = Some handler ->
    handler tx = Returns true ->
    history_method C op (store w) = (Returns hr, s) ->
    history_recorded hr = Some transactionId ->
    getHash C tx = Throws e ->
    Path C this op w failure s [CallHandler tx; history_call op]
         [ConsoleError (catch_message op) (Some e)]
| Reconciled (handler : Handler) (tx : Transaction) (hr : HistoryResult)
    (s : Store C) (transactionId : string) (h : string) :
    submitted C op = Returns tx ->
    transactionHandler this = Some handler ->
    handler tx = Returns true ->
    history_method C op (store w) = (Returns hr, s) ->
    history_recorded hr = Some transactionId ->
    getHash C tx = Returns h ->
    Path C this op w (accepted h) s
         [CallHandler tx; history_call op; CallGetTransaction transactionId]
         (reconciliation_log transactionId "pending" h
            (hs_getTransaction C transactionId s)).

(** ** Where an exception is raised *)

Inductive Stage : Type :=
| Preparing      (* key derivation, reading [details], signing *)
| Submitting     (* the ledger handler *)
| Recording      (* the history write *)
| Hashing        (* [transaction.getHash()] *)
| Reconciling.   (* [getTransaction], inside the reconciliation step *)

(** [throws_at C this op w stage e]: in the call of [op] in world [w], the
    collaborator reached at [stage] throws [e]. *)
Inductive throws_at (C : Collaborators) (this : BlockchainIntegration)
  (op : Operation) (w : World C) : Stage -> exn -> Prop :=
| throws_preparing (e : exn) :
    submitted C op = Throws e ->
    throws_at C this op w Preparing e
| throws_submitting (handler : Handler) (tx : Transaction) (e : exn) :
    submitted C op = Returns tx ->
    transactionHandler this = Some handler ->
    handler tx = Throws e ->
    throws_at C this op w Submitting e
| throws_recording (handler : Handler) (tx : Transaction) (e : exn)
    (s : Store C) :
    submitted C op = Returns tx ->
    transactionHandler this = Some handler ->
    handler tx = Returns true ->
    history_method C op (store w) = (Throws e, s) ->
    throws_at C this op w Recording e
| throws_hashing (handler : Handler) (tx : Transaction) (hr : HistoryResult)
    (s : Store C) (transactionId : string) (e : exn) :
    submitted C op = Returns tx ->
    transactionHandler this = Some handler ->
    handler tx = Returns true ->
    history_method C op (store w) = (Returns hr, s) ->
    history_recorded hr = Some transactionId ->
    getHash C tx = Throws e ->
    throws_at C this op w Hashing e
| throws_reconciling (handler : Handler) (tx : Transaction)
    (hr : HistoryResult) (s : Store C) (transactionId h : string) (e : exn) :
    submitted C op = Returns tx ->
    transactionHandler this = Some handler ->
    handler tx = Returns true ->
    history_method C op (store w) = (Returns hr, s) ->
    history_recorded hr = Some transactionId ->
    getHash C tx = Returns h ->
    hs_getTransaction C transactionId s = Throws e ->
    throws_at C this op w Reconciling e.

(** The private key an operation is given. *)
Definition signing_key (op : Operation) : string :=
  match op with
  | ProductCreation _ _ privateKey _ => privateKey
  | ProductTransfer _ _ _ _ _ privateKey _ => privateKey
  | ProductVerification _ _ _ privateKey _ _ => privateKey
  end.

(** Creation and verification against transfer. *)
Definition is_transfer (op : Operation) : bool :=
  match op with
  | ProductTransfer _ _ _ _ _ _ _ => true
  | ProductCreation _ _ _ _ | ProductVerification _ _ _ _ _ _ => false
  end.

(** ** Three statements that the code does not meet

    Each is the reading of a sentence of the specification; the
    properties section shows a call at which it fails and proves the
    statement that holds in its place. *)

(** "If the history write fails or returns no identifier, the operation
    still reports ledger-level success." *)
Definition ledger_success_not_masked (C : Collaborators)
  (this : BlockchainIntegration) (op : Operation) (w : World C) : Prop :=
  forall handler tx hr s,
    transactionHandler this = Some handler ->
    submitted C op = Returns tx ->
    handler tx = Returns true ->
    history_method C op (store w) = (Returns hr, s) ->
    history_recorded hr = None ->
    exists h, fst (invoke C this op w) = Returns (accepted h).

(** "The result contains a non-empty transaction hash, and the history
    record, once reconciled, has block hash [pending] and the hash of the
    transaction." *)
Definition record_reconciled (C : Collaborators)
  (this : BlockchainIntegration) (op : Operation) (w : World C) : Prop :=
  forall handler tx hr s transactionId,
    transactionHandler this = Some handler ->
    submitted C op = Returns tx ->
    handler tx = Returns true ->
    history_method C op (store w) = (Returns hr, s) ->
    history_recorded hr = Some transactionId ->
    exists h record info,
      getHash C tx = Returns h /\ h <> "" /\
      fst (invoke C this op w) = Returns (accepted h) /\
      hs_getTransaction C transactionId (store (snd (invoke C this op w)))
      = Returns (Some record) /\
      tr_blockchain record = Some info /\
      bi_blockHash info = "pending" /\
      bi_transactionHash info = Some h.

(** "Every internal failure is caught and converted to [{success: false}]
    plus a logged diagnostic." *)
Definition failures_become_failure (C : Collaborators)
  (this : BlockchainIntegration) (op : Operation) (w : World C) : Prop :=
  exists r,
    fst (invoke C this op w) = Returns r /\
    forall stage e,
      throws_at C this op w stage e ->
      r = failure /\ logged (invoke C this op) w <> [].

(** ** A concrete setting

    Collaborators small enough to run: key pairs that are their private
    key, a ledger handler that always accepts or always rejects, and a
    history store kept in memory. *)

Module Demo.

(** Modelled from the spec: the history store
    ([TransactionHistoryService], in [./TransactionHistory]) is not part
    of the sources at hand.  The store creates a record under a fresh
    identifier for every event it is given and finds records by
    identifier; a record is created without ledger identifiers, which
    only a later reconciliation would attach. *)
Definition MemoryStore : Type := list TransactionRecord.

Definition fresh_id (s : MemoryStore) : string :=
  "txn-" ++ NilEmpty.string_of_uint (Nat.to_uint (length s)).

Definition remember (actionType productId fromUserId toUserId : string)
  (details : JSValue) (s : MemoryStore)
  : outcome HistoryResult * MemoryStore :=
  (Returns {| hr_success := true; hr_transactionId := Some (fresh_id s) |},
   (s ++ [{| tr_id := fresh_id s;
             tr_productId := productId;
             tr_fromUserId := fromUserId;
             tr_toUserId := toUserId;
             tr_actionType := actionType;
             tr_details := details;
             tr_blockchain := None |}])%list).

Definition find_record (transactionId : string) (s : MemoryStore)
  : outcome (option TransactionRecord) :=
  Returns (find (fun r => String.eqb (tr_id r) transactionId) s).

(** A store that refuses every write. *)
Definition refuse (s : MemoryStore) : outcome HistoryResult * MemoryStore :=
  (Returns {| hr_success := false; hr_transactionId := None |}, s).

(** A store that cannot be read. *)
Definition unreadable (transactionId : string) (s : MemoryStore)
  : outcome (option TransactionRecord) :=
  Throws "history store unavailable".

(** A store that finds nothing. *)
Definition forgetful (transactionId : string) (s : MemoryStore)
  : outcome (option TransactionRecord) :=
  Returns None.

Definition derive (privateKey : string) : outcome string :=
  if String.eqb privateKey "" then Throws "Invalid private key"
  else Returns privateKey.

Definition public_of (keyPair : string) : string := "pub:" ++ keyPair.

Definition product_of (data : TransactionData) : string :=
  match data with
  | PRODUCT_CREATE productId _ => productId
  | PRODUCT_TRANSFER productId _ _ _ => productId
  | PRODUCT_VERIFICATION productId _ _ _ => productId
  end.

Definition digest (tx : Transaction) : outcome string :=
  Returns ("hash:" ++ tx_from tx ++ ":" ++ product_of (tx_data tx)).

(** Collaborators over the memory store; [writes] says whether the
    store takes writes, [read] is its [getTransaction]. *)
Definition collaborators (writes : bool)
  (read : string -> MemoryStore -> outcome (option TransactionRecord))
  : Collaborators :=
  {| KeyPair := string;
     Store := MemoryStore;
     getKeyPair := derive;
     getPublic := public_of;
     signature_for := fun keyPair _ => Returns ("sig:" ++ keyPair);
     getHash := digest;
     hs_recordProductCreation := fun productId userId details =>
       if writes
       then remember "CREATE" productId userId userId details
       else refuse;
     hs_recordProductTransfer :=
       fun productId fromUserId _ toUserId _ details =>
       if writes
       then remember "TRANSFER" productId fromUserId toUserId details
       else refuse;
     hs_recordProductVerification :=
       fun productId verifierId _ _ details =>
       if writes
       then remember "VERIFY" productId verifierId verifierId details
       else refuse;
     hs_getTransaction := read |}.

Definition memory : Collaborators := collaborators true find_record.
Definition refusing : Collaborators := collaborators false find_record.
Definition unread : Collaborators := collaborators true unreadable.
Definition amnesic : Collaborators := collaborators true forgetful.

Definition accept : Handler := fun _ => Returns true.
Definition reject : Handler := fun _ => Returns false.

Definition accepting : BlockchainIntegration :=
  setTransactionHandler accept new_BlockchainIntegration.
Definition rejecting : BlockchainIntegration :=
  setTransactionHandler reject new_BlockchainIntegration.

(** An empty world. *)
Definition genesis (C : Collaborators) (s : Store C) : World C :=
  {| store := s; calls := []; console := [] |}.

Definition creation : Operation :=
  ProductCreation "P1" "U1" "K"
    (JObject [("weight", JNumber 10)]).

Definition transfer : Operation :=
  ProductTransfer "P1" "U1" "U2" "PRODUCER" "DISTRIBUTOR" "K"
    (JObject [("toPublicKey", JString "04ab")]).

Definition transfer_unaddressed : Operation :=
  ProductTransfer "P1" "U1" "U2" "PRODUCER" "DISTRIBUTOR" "K"
    (JObject [("quantity", JNumber 3)]).

Definition verification : Operation :=
  ProductVerification "P1" "U3" "INSPECTOR" "K" true (JObject []).

(** The creation transaction of key ["K"], signed. *)
Definition creation_tx : Transaction :=
  {| tx_from := "pub:K";
     tx_to := JString "pub:K";
     tx_data := PRODUCT_CREATE "P1" (JObject [("weight", JNumber 10)]);
     tx_signature := Some "sig:K" |}.

(** The transfer transaction of key ["K"] to ["04ab"], signed. *)
Definition transfer_tx : Transaction :=
  {| tx_from := "pub:K";
     tx_to := JString "04ab";
     tx_data := PRODUCT_TRANSFER "P1" "U1" "U2"
                  (JObject [("toPublicKey", JString "04ab")]);
     tx_signature := Some "sig:K" |}.

(** The record the memory store keeps of [creation]. *)
Definition creation_record : TransactionRecord :=
  {| tr_id := "txn-0";
     tr_productId := "P1";
     tr_fromUserId := "U1";
     tr_toUserId := "U1";
     tr_actionType := "CREATE";
     tr_details := JObject [("weight", JNumber 10)];
     tr_blockchain := None |}.
End Demo.

(** ** The payload of an operation

    The [data] object each method passes to [new Transaction].  The roles
    of a transfer or of a verification, and the user of a creation, go to
    the history service only. *)
Definition payload (op : Operation) : TransactionData :=
  match op with
  | ProductCreation productId _ _ productData =>
      PRODUCT_CREATE productId productData
  | ProductTransfer productId fromUserId toUserId _ _ _ details =>
      PRODUCT_TRANSFER productId fromUserId toUserId details
  | ProductVerification productId verifierId _ _ passed details =>
      PRODUCT_VERIFICATION productId verifierId passed details
  end.

(** ** The singleton

    The class keeps its only object in the static field [instance]; the
    constructor is private.  A reference to the object is modelled by the
    field itself: what a method does to [this] is done to the content of
    the field. *)
Record Class : Type := mkClass {
  instance : option BlockchainIntegration
}.

(** The class as loaded: [instance] is undefined. *)
Definition loaded : Class := {| instance := None |}.

(** [getInstance]: the object, and the class after the call. *)
Definition getInstance (cls : Class) : BlockchainIntegration * Class :=
  match instance cls with
  | Some this => (this, cls)
  | None =>
      (new_BlockchainIntegration,
       {| instance := Some new_BlockchainIntegration |})
  end.

(** [BlockchainIntegration.getInstance().setTransactionHandler(handler)] *)
Definition register (handler : Handler) (cls : Class) : Class :=
  let (this, _) := getInstance cls in
  {| instance := Some (setTransactionHandler handler this) |}.

(** A public method called on [BlockchainIntegration.getInstance()]. *)
Definition invoke_instance (C : Collaborators) (cls : Class)
  (op : Operation) (w : World C) : (outcome Result * World C) * Class :=
  let (this, cls') := getInstance cls in
  (invoke C this op w, cls').

(** ** Settings in which a collaborator fails *)

Module Faults.

(** Signing fails. *)
Definition unsigned : Collaborators :=
  {| KeyPair := string;
     Store := Demo.MemoryStore;
     getKeyPair := Demo.derive;
     getPublic := Demo.public_of;
     signature_for := fun _ _ => Throws "Invalid signing key";
     getHash := Demo.digest;
     hs_recordProductCreation := fun productId userId details =>
       Demo.remember "CREATE" productId userId userId details;
     hs_recordProductTransfer :=
       fun productId fromUserId _ toUserId _ details =>
       Demo.remember "TRANSFER" productId fromUserId toUserId details;
     hs_recordProductVerification :=
       fun productId verifierId _ _ details =>
       Demo.remember "VERIFY" productId verifierId verifierId details;
     hs_getTransaction := Demo.find_record |}.

(** A ledger that cannot be reached. *)
Definition offline : Handler := fun _ => Throws "ledger offline".

Definition unreachable : BlockchainIntegration :=
  setTransactionHandler offline new_BlockchainIntegration.

(** The verification transaction of key ["K"], signed. *)
Definition verification_tx : Transaction :=
  {| tx_from := "pub:K";
     tx_to := JString "pub:K";
     tx_data := PRODUCT_VERIFICATION "P1" "U3" true (JObject []);
     tx_signature := Some "sig:K" |}.

(** The record the memory store keeps of [Demo.transfer]. *)
Definition transfer_record : TransactionRecord :=
  {| tr_id := "txn-0";
     tr_productId := "P1";
     tr_fromUserId := "U1";
     tr_toUserId := "U2";
     tr_actionType := "TRANSFER";
     tr_details := JObject [("toPublicKey", JString "04ab")];
     tr_blockchain := None |}.
End Faults.

(** * The wallet registration route

    A shallow embedding of the [POST] handler of the front end's
    [register-wallet] API route: it checks the fields of the request and
    forwards the request to the back end.

    The request body, the environment variable and [fetch] are the
    environment of a call.  The handler is embedded in a state-and-exception
    monad over the [fetch] calls made and the console. *)

Module RegisterWallet.

(** What [fetch] resolves to, as the handler uses it: [response.status]
    and what [response.json()] does. *)
Record Response : Type := mkResponse {
  status : Z;
  json : outcome JSValue
}.

(** The second argument of [fetch]; [body] is the value handed to
    [JSON.stringify]. *)
Record RequestInit : Type := mkRequestInit {
  method : string;
  headers : list (string * string);
  body : JSValue
}.

Record Environment : Type := mkEnvironment {
  (** [req.json()] *)
  req_json : outcome JSValue;
  (** [process.env.NEXT_PUBLIC_API_URL] *)
  NEXT_PUBLIC_API_URL : option string;
  (** [fetch(url, init)]; the handler provides for a falsy response *)
  fetch : string -> RequestInit -> outcome (option Response)
}.

(** What is thrown inside the handler. *)
Inductive Thrown : Type :=
| Rejection (e : exn)     (* thrown by [req.json], [fetch] or a response *)
| CannotDestructure       (* [const { name, ... } = data] on null, undefined *)
| NotAFunction            (* [message.substring] on a value without it *)
| CannotRead              (* [result.success] on null or undefined *)
| InvalidStatus (s : Z).  (* a status [NextResponse.json] refuses *)

(** The first argument of [NextResponse.json]: an error object of the
    handler, [{success: false, message, details: error.message}] with
    [details] only in the [catch] blocks, or the result of the back end. *)
Inductive Body : Type :=
| Failed (message : string) (details : option Thrown)
| Forwarded (result : JSValue).

Record NextResponse : Type := mkNextResponse {
  nr_body : Body;
  nr_status : Z
}.

(** The statuses a response with a body cannot have. *)
Definition null_body_status (s : Z) : bool :=
  ((s =? 101)%Z || (s =? 103)%Z || (s =? 204)%Z || (s =? 205)%Z
   || (s =? 304)%Z)%bool.

(** [NextResponse.json(body, { status })] builds a [Response] with a body:
    the status has to lie in 200..599 and must not be one that excludes a
    body. *)
Definition NextResponse_json (b : Body) (s : Z) : option NextResponse :=
  if ((200 <=? s)%Z && (s <=? 599)%Z && negb (null_body_status s))%bool
  then Some {| nr_body := b; nr_status := s |}
  else None.

Inductive Line : Type :=
| Log (label : string)
| Error (label : string).

Record Trace : Type := mkTrace {
  fetched : list (string * RequestInit);
  printed : list Line
}.

Definition quiet : Trace := {| fetched := []; printed := [] |}.

(** Results inside the handler: a value or something thrown. *)
Inductive result (A : Type) : Type :=
| Value (a : A)
| Raise (t : Thrown).
Arguments Value {A} a.
Arguments Raise {A} t.

Definition R (A : Type) : Type := Trace -> result A * Trace.

Definition unit_ {A} (a : A) : R A := fun t => (Value a, t).

Definition then_ {A B} (m : R A) (k : A -> R B) : R B :=
  fun t =>
    match m t with
    | (Value a, t') => k a t'
    | (Raise x, t') => (Raise x, t')
    end.

Definition attempt {A} (tried : R A) (handler : Thrown -> R A) : R A :=
  fun t =>
    match tried t with
    | (Value a, t') => (Value a, t')
    | (Raise x, t') => handler x t'
    end.

(** A promise of a collaborator, awaited. *)
Definition await {A} (o : outcome A) : R A :=
  fun t =>
    match o with
    | Returns a => (Value a, t)
    | Throws e => (Raise (Rejection e), t)
    end.

Definition raise {A} (x : Thrown) : R A := fun t => (Raise x, t).

Definition console_log (label : string) : R unit :=
  fun t => (Value tt,
            {| fetched := fetched t;
               printed := (printed t ++ [Log label])%list |}).

Definition console_error (label : string) : R unit :=
  fun t => (Value tt,
            {| fetched := fetched t;
               printed := (printed t ++ [Error label])%list |}).

Definition await_fetch (E : Environment) (url : string) (init : RequestInit)
  : R (option Response) :=
  fun t =>
    match fetch E url init with
    | Returns r =>
        (Value r,
         {| fetched := (fetched t ++ [(url, init)])%list;
            printed := printed t |})
    | Throws e =>
        (Raise (Rejection e),
         {| fetched := (fetched t ++ [(url, init)])%list;
            printed := printed t |})
    end.

(** [NextResponse.json(...)], inside the handler. *)
Definition respond (b : Body) (s : Z) : R NextResponse :=
  match NextResponse_json b s with
  | Some r => unit_ r
  | None => raise (InvalidStatus s)
  end.

(** A property of a value that is neither [null] nor [undefined]. *)
Definition field (data : JSValue) (k : string) : JSValue :=
  match data with
  | JObject fields =>
      match lookup_field k fields with
      | Some x => x
      | None => JUndefined
      end
  | _ => JUndefined
  end.

Definition nullish (v : JSValue) : bool :=
  match v with
  | JUndefined | JNull => true
  | _ => false
  end.

(** [message ? message.substring(0, 20) + '...' : 'none']: the preview is
    only printed; computing it throws when [message] is truthy and has no
    [substring] method, that is, when it is not a string. *)
Definition message_preview (message : JSValue) : R unit :=
  if truthy message then
    match message with
    | JString _ => unit_ tt
    | _ => raise NotAFunction
    end
  else unit_ tt.

(** [process.env.NEXT_PUBLIC_API_URL || 'http://localhost:5010/api'] *)
Definition apiUrl (E : Environment) : string :=
  match NEXT_PUBLIC_API_URL E with
  | Some url => if String.eqb url "" then "http://localhost:5010/api" else url
  | None => "http://localhost:5010/api"
  end.

Declare Scope route_scope.
Notation "x <- m ;; k" := (then_ m (fun x => k))
  (at level 61, m at next level, right associativity) : route_scope.
Notation "m ;;; k" := (then_ m (fun _ => k))
  (at level 61, right associativity) : route_scope.
Local Open Scope route_scope.

(** [POST] *)
Definition POST (E : Environment) : R NextResponse :=
  attempt
    (data <- await (req_json E) ;;
     (if nullish data then raise CannotDestructure else unit_ tt) ;;;
     let name := field data "name" in
     let role := field data "role" in
     let address := field data "address" in
     let signature := field data "signature" in
     let message := field data "message" in
     let chainId := field data "chainId" in
     message_preview message ;;;
     console_log "Processing wallet registration:" ;;;
     if (negb (truthy name) || negb (truthy role) || negb (truthy address)
         || negb (truthy signature) || negb (truthy message))%bool
     then
       console_error "Missing required fields:" ;;;
       respond (Failed "Missing required fields" None) 400
     else
       let url := apiUrl E in
       console_log ("Connecting to backend API: " ++ url
                    ++ "/auth/register-wallet") ;;;
       attempt
         (response <-
            await_fetch E (url ++ "/auth/register-wallet")
              {| method := "POST";
                 headers := [("Content-Type", "application/json")];
                 body := JObject [("name", name); ("role", role);
                                  ("address", address);
                                  ("signature", signature);
                                  ("message", message);
                                  ("chainId", chainId)] |} ;;
          match response with
          | None =>
              console_error "No response received from backend" ;;;
              respond (Failed "No response from server" None) 502
          | Some response =>
              parsed <-
                attempt
                  (result <- await (json response) ;; unit_ (inl result))
                  (fun parseError =>
                     console_error "Failed to parse response:" ;;;
                     early <-
                       respond (Failed "Invalid response from server" None)
                               502 ;;
                     unit_ (inr early)) ;;
              match parsed with
              | inr early => unit_ early
              | inl result =>
                  (if nullish result then raise CannotRead else unit_ tt) ;;;
                  console_log "Backend response:" ;;;
                  respond (Forwarded result) (status response)
              end
          end)
         (fun fetchError =>
            console_error "Fetch error during wallet registration:" ;;;
            respond (Failed "Error connecting to server" (Some fetchError))
                    503))
    (fun error =>
       console_error "Error in register-wallet API route:" ;;;
       respond (Failed "An error occurred during wallet registration"
                       (Some error))
               500).

End RegisterWallet.

(** ** What the route asks of a request *)

Module Wallet.

(** The fields the handler requires. *)
Definition required : list string :=
  ["name"; "role"; "address"; "signature"; "message"].

(** One of the required fields of [data] is missing or falsy. *)
Definition incomplete (data : JSValue) : bool :=
  existsb (fun k => negb (truthy (RegisterWallet.field data k))) required.

Definition is_string (v : JSValue) : bool :=
  match v with
  | JString _ => true
  | _ => false
  end.

(** The object the handler serialises for the back end. *)
Definition forwarded (data : JSValue) : JSValue :=
  JObject [("name", RegisterWallet.field data "name");
           ("role", RegisterWallet.field data "role");
           ("address", RegisterWallet.field data "address");
           ("signature", RegisterWallet.field data "signature");
           ("message", RegisterWallet.field data "message");
           ("chainId", RegisterWallet.field data "chainId")].

(** The request the handler sends for [data]. *)
Definition init_for (data : JSValue) : RegisterWallet.RequestInit :=
  {| RegisterWallet.method := "POST";
     RegisterWallet.headers := [("Content-Type", "application/json")];
     RegisterWallet.body := forwarded data |}.

Definition endpoint (E : RegisterWallet.Environment) : string :=
  RegisterWallet.apiUrl E ++ "/auth/register-wallet".

(** A call of the handler, from an empty trace. *)
Definition run (E : RegisterWallet.Environment)
  : RegisterWallet.result RegisterWallet.NextResponse * RegisterWallet.Trace :=
  RegisterWallet.POST E RegisterWallet.quiet.

(** The handler answers with body [b] and status [s], after one request
    to the back end, the one for [data]. *)
Definition answered (E : RegisterWallet.Environment) (data : JSValue)
  (b : RegisterWallet.Body) (s : Z) : Prop :=
  fst (run E)
  = RegisterWallet.Value
      {| RegisterWallet.nr_body := b; RegisterWallet.nr_status := s |} /\
  RegisterWallet.fetched (snd (run E)) = [(endpoint E, init_for data)].

(** A complete request, signed by a wallet. *)
Definition sample : JSValue :=
  JObject [("name", JString "Sari"); ("role", JString "FARMER");
           ("address", JString "0xabc"); ("signature", JString "0xsig");
           ("message", JString "Sign in to AgriChain")].

(** A back end that answers every request with [answer]. *)
Definition backend (request : outcome JSValue)
  (answer : outcome (option RegisterWallet.Response))
  : RegisterWallet.Environment :=
  {| RegisterWallet.req_json := request;
     RegisterWallet.NEXT_PUBLIC_API_URL := None;
     RegisterWallet.fetch := fun _ _ => answer |}.

(** The answer of a back end that knows the wallet already. *)
Definition conflict : RegisterWallet.Response :=
  {| RegisterWallet.status := 409;
     RegisterWallet.json :=
       Returns (JObject [("success", JBool false);
                         ("message", JString "Wallet already registered")])
  |}.
End Wallet.

(** * The protected route

    A shallow embedding of the front end's [ProtectedRoute] component:
    [checkAuth], the function its effect runs, and what the component
    renders.  [checkAuth] is embedded as the list of the actions it takes,
    in their order. *)

Module ProtectedRoute.
Local Open Scope bool_scope.

(** The [status] of [useSession]. *)
Inductive Status : Type :=
| authenticated
| loading
| unauthenticated.

Record Props : Type := mkProps {
  roles : list string;
  skipRoleCheck : bool;
  allowNoRole : bool
}.

(** What [checkAuth] reads from the browser.  The four items are what
    [localStorage.getItem] returns, [None] for [null]. *)
Record Browser : Type := mkBrowser {
  walletAuthToken : option string;
  web3AuthToken : option string;
  walletUserData : option string;
  walletAddress : option string;
  (** [window.location.pathname] *)
  pathname : string;
  (** [JSON.parse] *)
  JSON_parse : string -> outcome JSValue;
  (** [String(v).toUpperCase()], for a truthy [v] *)
  upper : JSValue -> string
}.

Inductive Action : Type :=
| Log (label : string)
| Error (label : string)
(** [sessionStorage.setItem('session', JSON.stringify({user, accessToken}))] *)
| StoreSession (user accessToken : JSValue)
(** [router.push(path)] *)
| Push (path : string)
| SetAuthChecked (b : bool)
| SetAuthError (e : option string).

(** Truthiness of an item of [localStorage]. *)
Definition present (item : option string) : bool :=
  match item with
  | Some s => negb (String.eqb s "")
  | None => false
  end.

(** [pathname.includes(part)] *)
Fixpoint includes (part s : string) : bool :=
  if String.prefix part s then true
  else match s with
       | EmptyString => false
       | String _ rest => includes part rest
       end.

(** [v?.k] *)
Definition optional (v : JSValue) (k : string) : JSValue :=
  if RegisterWallet.nullish v then JUndefined else RegisterWallet.field v k.

(** [localStorage.getItem('walletAuthToken') ||
     localStorage.getItem('web3AuthToken')] *)
Definition walletToken (B : Browser) : option string :=
  if present (walletAuthToken B) then walletAuthToken B else web3AuthToken B.

Definition hasWalletAuth (B : Browser) : bool :=
  present (walletToken B) && present (walletUserData B).

Definition isAuthPage (B : Browser) : bool :=
  includes "/auth/login" (pathname B)
  || includes "/auth/register" (pathname B).

(** The role and the [needsRoleSelection] flag [checkAuth] settles on,
    with what it prints on the way: those of the session, or, for a
    wallet user whose session gives no role, the role of the stored
    wallet data. *)
Definition resolve (session : JSValue) (B : Browser)
  : JSValue * JSValue * list Action :=
  let userRole := optional (optional session "user") "role" in
  let needsRoleSelection :=
    optional (optional session "user") "needsRoleSelection" in
  if hasWalletAuth B && negb (truthy userRole) then
    match JSON_parse B (if present (walletUserData B)
                        then match walletUserData B with
                             | Some text => text
                             | None => "{}"
                             end
                        else "{}") with
    | Returns userData =>
        if RegisterWallet.nullish userData
        then (userRole, needsRoleSelection,
              [Error "Error parsing wallet user data:"])
        else (RegisterWallet.field userData "role", JBool false, [])
    | Throws _ =>
        (userRole, needsRoleSelection,
         [Error "Error parsing wallet user data:"])
    end
  else (userRole, needsRoleSelection, []).

(** [String(userRole || '').toUpperCase()] *)
Definition stringRole (B : Browser) (userRole : JSValue) : string :=
  if truthy userRole then upper B userRole else "".

Definition isValidRole (B : Browser) (userRole : JSValue) : bool :=
  negb (String.eqb (stringRole B userRole) "")
  && negb (String.eqb (stringRole B userRole) "UNDEFINED")
  && negb (String.eqb (stringRole B userRole) "NULL")
  && negb (String.eqb (stringRole B userRole) "UNKNOWN").

(** [userRole && roles.includes(userRole)] *)
Definition hasRequiredRole (P : Props) (userRole : JSValue) : bool :=
  truthy userRole
  && match userRole with
     | JString role => existsb (String.eqb role) (roles P)
     | _ => false
     end.

Definition nonempty {A : Type} (l : list A) : bool :=
  match l with
  | [] => false
  | _ :: _ => true
  end.

Definition is_status (a b : Status) : bool :=
  match a, b with
  | authenticated, authenticated
  | loading, loading
  | unauthenticated, unauthenticated => true
  | _, _ => false
  end.

(** What follows once the role is settled. *)
Definition decide (P : Props) (B : Browser)
  (userRole needsRoleSelection : JSValue) : list Action :=
  if skipRoleCheck P then [SetAuthChecked true]
  else if (negb (isValidRole B userRole) || truthy needsRoleSelection)
          && negb (allowNoRole P)
  then [SetAuthError
          (Some "Please complete your profile and select a role before continuing.");
        Push "/profile"]
  else if nonempty (roles P) && negb (hasRequiredRole P userRole)
  then [SetAuthError
          (Some "You do not have permission to access this page.");
        Push "/"]
  else [SetAuthChecked true; SetAuthError None].

(** [checkAuth] *)
Definition checkAuth (P : Props) (status : Status) (session : JSValue)
  (B : Browser) : list Action :=
  ([Log "ProtectedRoute: Checking auth sources"]
   ++ (if is_status status authenticated && truthy session
       then [StoreSession (RegisterWallet.field session "user")
                          (RegisterWallet.field session "accessToken")]
       else [])
   ++ (if is_status status loading && negb (hasWalletAuth B)
       then [Log "ProtectedRoute: Authentication status is loading"]
       else if is_status status unauthenticated && negb (hasWalletAuth B)
               && negb (isAuthPage B)
       then [Log "ProtectedRoute: User is not authenticated, redirecting to login";
             Push "/auth/login"]
       else
         let '(userRole, needsRoleSelection, printed) := resolve session B in
         printed ++ decide P B userRole needsRoleSelection))%list.

(** The two state variables of the component. *)
Record State : Type := mkState {
  authChecked : bool;
  authError : option string
}.

(** [useState(false)], [useState(null)] *)
Definition initial : State := {| authChecked := false; authError := None |}.

Definition apply (s : State) (a : Action) : State :=
  match a with
  | SetAuthChecked b => {| authChecked := b; authError := authError s |}
  | SetAuthError e => {| authChecked := authChecked s; authError := e |}
  | _ => s
  end.

(** The state after the actions of a check. *)
Definition after (s : State) (actions : list Action) : State :=
  fold_left apply actions s.

Inductive View : Type :=
| Spinner
| Nothing
| Warning (authError : string)
| Children.

(** What the component returns. *)
Definition render (status : Status) (s : State) : View :=
  if is_status status loading || negb (authChecked s) then Spinner
  else if is_status status unauthenticated then Nothing
  else match authError s with
       | Some e => if String.eqb e "" then Children else Warning e
       | None => Children
       end.

(** The pages [checkAuth] sends the visitor to. *)
Definition pushes (actions : list Action) : list string :=
  flat_map (fun a => match a with Push path => [path] | _ => [] end) actions.

(** A wallet user with role [FARMER], not signed in through a session. *)
Definition wallet_visitor : Browser :=
  {| walletAuthToken := Some "token";
     web3AuthToken := None;
     walletUserData := Some "{role: FARMER}";
     walletAddress := Some "0xabc";
     pathname := "/dashboard";
     JSON_parse := fun _ => Returns (JObject [("role", JString "FARMER")]);
     upper := fun _ => "FARMER" |}.

(** A visitor with nothing stored. *)
Definition stranger (path : string) : Browser :=
  {| walletAuthToken := None;
     web3AuthToken := None;
     walletUserData := None;
     walletAddress := None;
     pathname := path;
     JSON_parse := fun _ => Throws "SyntaxError";
     upper := fun _ => "" |}.

Definition farmers_only : Props :=
  {| roles := ["FARMER"]; skipRoleCheck := false; allowNoRole := false |}.
End ProtectedRoute.

(** ** How a call runs: one lemma per path through the protocol *)

Lemma invoke_protocol (C : Collaborators) (this : BlockchainIntegration)
  (op : Operation) (w : World C) :
  invoke C this op w = protocol C this op w.
Proof.
  destruct op; cbn [invoke];
    unfold recordProductCreation, recordProductTransfer,
      recordProductVerification, protocol, submit, submitted, reconcile,
      try_catch, bind, lift; cbn [constructed];
    destruct (getKeyPair C privateKey) as [keyPair|e]; try reflexivity.
  destruct (get_property details "toPublicKey"); reflexivity.
Qed.

Lemma skipn_length_app {A : Type} (l l' : list A) :
  skipn (length l) (l ++ l')%list = l'.
Proof.
  induction l as [|x l IH]; [reflexivity | exact IH].
Qed.

Lemma skipn_length_self {A : Type} (l : list A) :
  skipn (length l) l = [].
Proof.
  induction l as [|x l IH]; [reflexivity | exact IH].
Qed.

Section Runs.
Variable C : Collaborators.
Variable this : BlockchainIntegration.
Variable op : Operation.
Variable w : World C.

Lemma made_of_extend {A : Type} (m : M C A) (r : outcome A) (s : Store C)
  (cs : list Call) (ls : list LogLine) :
  m w = (r, extend w s cs ls) ->
  fst (m w) = r /\ store (snd (m w)) = s /\
  calls_made m w = cs /\ logged m w = ls.
Proof.
  intros E. unfold calls_made, logged. rewrite E. cbn.
  rewrite !skipn_length_app. repeat split.
Qed.

Lemma made_of_same {A : Type} (m : M C A) (r : outcome A) :
  m w = (r, w) ->
  fst (m w) = r /\ store (snd (m w)) = store w /\
  calls_made m w = [] /\ logged m w = [].
Proof.
  intros E. unfold calls_made, logged. rewrite E. cbn.
  rewrite !skipn_length_self. repeat split.
Qed.

Ltac run :=
  rewrite invoke_protocol;
  unfold protocol, submit, reconcile, updateTransactionWithBlockchainInfo,
    await_handler, await_getTransaction, try_catch, bind, lift, ret,
    record_call, on_store, read_store, console_log, console_error, extend.

(** The transaction cannot be built or signed. *)
Lemma run_not_submitted (e : exn) :
  submitted C op = Throws e ->
  invoke C this op w =
    (Returns failure,
     extend w (store w) [] [ConsoleError (catch_message op) (Some e)]).
Proof.
  intros Hsub. run. rewrite Hsub. cbn. now rewrite app_nil_r.
Qed.

(** No handler is registered. *)
Lemma run_no_handler (tx : Transaction) :
  submitted C op = Returns tx ->
  transactionHandler this = None ->
  invoke C this op w = (Returns failure, w).
Proof.
  intros Hsub Hnone. run. rewrite Hsub, Hnone. reflexivity.
Qed.

Section Registered.
Variable handler : Handler.
Variable tx : Transaction.
Hypothesis Hsub : submitted C op = Returns tx.
Hypothesis Hreg : transactionHandler this = Some handler.

(** The handler rejects the transaction. *)
Lemma run_rejected :
  handler tx = Returns false ->
  invoke C this op w =
    (Returns failure, extend w (store w) [CallHandler tx] []).
Proof.
  intros Hh. run. rewrite Hsub, Hreg. cbn. rewrite Hh. cbn.
  now rewrite app_nil_r.
Qed.

(** The handler throws. *)
Lemma run_handler_throws (e : exn) :
  handler tx = Throws e ->
  invoke C this op w =
    (Returns failure,
     extend w (store w) [CallHandler tx]
            [ConsoleError (catch_message op) (Some e)]).
Proof.
  intros Hh. run. rewrite Hsub, Hreg. cbn. rewrite Hh. reflexivity.
Qed.

Section Accepted.
Hypothesis Hacc : handler tx = Returns true.

(** The history write throws. *)
Lemma run_write_throws (e : exn) (s : Store C) :
  history_method C op (store w) = (Throws e, s) ->
  invoke C this op w =
    (Returns failure,
     extend w s [CallHandler tx; history_call op]
            [ConsoleError (catch_message op) (Some e)]).
Proof.
  intros Hw. run. rewrite Hsub, Hreg. cbn. rewrite Hacc. cbn.
  rewrite Hw. cbn. now rewrite <- app_assoc.
Qed.

Section Written.
Variable hr : HistoryResult.
Variable s : Store C.
Hypothesis Hw : history_method C op (store w) = (Returns hr, s).

(** The history write reports a failure or gives no identifier. *)
Lemma run_not_recorded :
  history_recorded hr = None ->
  invoke C this op w =
    (Returns failure,
     extend w s [CallHandler tx; history_call op] []).
Proof.
  intros Hrec. run. rewrite Hsub, Hreg. cbn. rewrite Hacc. cbn.
  rewrite Hw. cbn. rewrite Hrec. cbn.
  now rewrite <- app_assoc, app_nil_r.
Qed.

Section Recorded.
Variable transactionId : string.
Hypothesis Hrec : history_recorded hr = Some transactionId.

(** The transaction has no hash to give. *)
Lemma run_hash_throws (e : exn) :
  getHash C tx = Throws e ->
  invoke C this op w =
    (Returns failure,
     extend w s [CallHandler tx; history_call op]
            [ConsoleError (catch_message op) (Some e)]).
Proof.
  intros Hh. run. rewrite Hsub, Hreg. cbn. rewrite Hacc. cbn.
  rewrite Hw. cbn. rewrite Hrec. cbn. rewrite Hh. cbn.
  now rewrite <- app_assoc.
Qed.

(** The whole protocol goes through; reconciliation prints. *)
Lemma run_reconciled (h : string) :
  getHash C tx = Returns h ->
  invoke C this op w =
    (Returns (accepted h),
     extend w s
       [CallHandler tx; history_call op;
        CallGetTransaction transactionId]
       (reconciliation_log transactionId "pending" h
          (hs_getTransaction C transactionId s))).
Proof.
  intros Hh. run. rewrite Hsub, Hreg. cbn. rewrite Hacc. cbn.
  rewrite Hw. cbn. rewrite Hrec. cbn. rewrite Hh. cbn.
  unfold reconciliation_log.
  destruct (hs_getTransaction C transactionId s) as [[r|]|e]; cbn;
    rewrite <- !app_assoc; reflexivity.
Qed.
End Recorded.
End Written.
End Accepted.
End Registered.
End Runs.

(** Every call follows one of the paths. *)
Lemma invoke_path (C : Collaborators) (this : BlockchainIntegration)
  (op : Operation) (w : World C) :
  exists r s cs ls,
    Path C this op w r s cs ls /\
    fst (invoke C this op w) = Returns r /\
    store (snd (invoke C this op w)) = s /\
    calls_made (invoke C this op) w = cs /\
    logged (invoke C this op) w = ls.
Proof.
  destruct (submitted C op) as [tx|e] eqn:Hsub.
  2:{ do 4 eexists. split; [eapply NotSubmitted; eassumption|].
      apply made_of_extend, run_not_submitted, Hsub. }
  destruct (transactionHandler this) as [handler|] eqn:Hreg.
  2:{ do 4 eexists. split; [eapply NoHandler; eassumption|].
      apply made_of_same. eapply run_no_handler; eassumption. }
  destruct (handler tx) as [[|]|e] eqn:Hh.
  2:{ do 4 eexists. split; [eapply Rejected; eassumption|].
      apply made_of_extend. eapply run_rejected; eassumption. }
  2:{ do 4 eexists. split; [eapply HandlerThrows; eassumption|].
      apply made_of_extend. eapply run_handler_throws; eassumption. }
  destruct (history_method C op (store w)) as [[hr|e] s] eqn:Hw.
  2:{ do 4 eexists. split; [eapply WriteThrows; eassumption|].
      apply made_of_extend. eapply run_write_throws; eassumption. }
  destruct (history_recorded hr) as [transactionId|] eqn:Hrec.
  2:{ do 4 eexists. split; [eapply NotRecorded; eassumption|].
      apply made_of_extend. eapply run_not_recorded; eassumption. }
  destruct (getHash C tx) as [h|e] eqn:Hhash.
  - do 4 eexists. split; [eapply Reconciled; eassumption|].
    apply made_of_extend. eapply run_reconciled; eassumption.
  - do 4 eexists. split; [eapply HashThrows; eassumption|].
    apply made_of_extend. eapply run_hash_throws; eassumption.
Qed.

(** ** Sample runs *)

Example creation_accepted :
  invoke Demo.memory Demo.accepting Demo.creation (Demo.genesis Demo.memory [])
  = (Returns (accepted "hash:pub:K:P1"),
     mkWorld Demo.memory
       [Demo.creation_record]
       [CallHandler Demo.creation_tx;
        CallRecordCreation "P1" "U1" (JObject [("weight", JNumber 10)]);
        CallGetTransaction "txn-0"]
       [ConsoleLog "Updating transaction txn-0 with blockchain data";
        ConsoleLog "Block hash: pending, Transaction hash: hash:pub:K:P1"]).
Proof. reflexivity. Qed.

Example transfer_rejected :
  invoke Demo.memory Demo.rejecting Demo.transfer (Demo.genesis Demo.memory [])
  = (Returns failure,
     mkWorld Demo.memory [] [CallHandler Demo.transfer_tx] []).
Proof. reflexivity. Qed.

Example transfer_without_details :
  invoke Demo.memory Demo.accepting
    (ProductTransfer "P1" "U1" "U2" "PRODUCER" "DISTRIBUTOR" "K" JUndefined)
    (Demo.genesis Demo.memory [])
  = (Returns failure,
     mkWorld Demo.memory [] []
       [ConsoleError "Error recording product transfer to blockchain:"
          (Some "TypeError: Cannot read properties of undefined (reading 'toPublicKey')")]).
Proof. reflexivity. Qed.

(** ** Properties of the three public operations *)

Lemma history_call_not_handler (op : Operation) :
  is_handler_call (history_call op) = false.
Proof. destruct op; reflexivity. Qed.

(** C1.  When the registered ledger handler returns [false] for the
    submitted transaction, the operation returns [{success: false}], makes
    no recording call to the history service and leaves the history store
    as it was.  Hence a recording call is only ever made for a transaction
    that the handler was given and accepted. *)
Theorem rejected_submission_leaves_no_history
  (C : Collaborators) (this : BlockchainIntegration) (op : Operation)
  (w : World C) :
  (forall handler tx,
     transactionHandler this = Some handler ->
     submitted C op = Returns tx ->
     handler tx = Returns false ->
     fst (invoke C this op w) = Returns failure /\
     history_writes (calls_made (invoke C this op) w) = [] /\
     store (snd (invoke C this op w)) = store w) /\
  (history_writes (calls_made (invoke C this op) w) <> [] ->
   exists handler tx,
     transactionHandler this = Some handler /\
     submitted C op = Returns tx /\
     handler tx = Returns true /\
     In (CallHandler tx) (calls_made (invoke C this op) w)).
Proof.
  split.
  - intros handler tx Hreg Hsub Hh.
    destruct (made_of_extend _ _ _ _ _ _ _
                (run_rejected C this op w handler tx Hsub Hreg Hh))
      as (Hr & Hs & Hc & _).
    rewrite Hc. repeat split; assumption.
  - destruct (invoke_path C this op w) as (r & s & cs & ls & P & _ & _ & Hc & _).
    rewrite Hc. intros Hne.
    destruct P; try (exfalso; apply Hne; reflexivity);
      exists handler, tx; repeat split; try assumption; left; reflexivity.
Qed.

Lemma rejected_submission_leaves_no_history_witness :
  transactionHandler Demo.rejecting = Some Demo.reject /\
  submitted Demo.memory Demo.transfer = Returns Demo.transfer_tx /\
  Demo.reject Demo.transfer_tx = Returns false /\
  fst (invoke Demo.memory Demo.rejecting Demo.transfer
         (Demo.genesis Demo.memory [])) = Returns failure /\
  history_writes
    (calls_made (invoke Demo.memory Demo.rejecting Demo.transfer)
       (Demo.genesis Demo.memory [])) = [] /\
  store (snd (invoke Demo.memory Demo.rejecting Demo.transfer
                (Demo.genesis Demo.memory []))) = [].
Proof.
  repeat (split; [reflexivity|]).
  apply (proj1 (rejected_submission_leaves_no_history
                  Demo.memory Demo.rejecting Demo.transfer
                  (Demo.genesis Demo.memory []))
           Demo.reject Demo.transfer_tx); reflexivity.
Defined.

(** C4.  With no ledger handler registered (the handler field is
    [null]), an operation returns [{success: false}] without throwing,
    and calls neither the ledger nor the history service.  Result, store,
    console and recording calls are those of a call whose registered
    handler rejects the transaction. *)
Theorem no_handler_is_a_rejection
  (C : Collaborators) (this : BlockchainIntegration) (op : Operation)
  (w : World C) :
  transactionHandler this = None ->
  fst (invoke C this op w) = Returns failure /\
  calls_made (invoke C this op) w = [] /\
  store (snd (invoke C this op w)) = store w /\
  forall that handler,
    transactionHandler that = Some handler ->
    (forall tx, submitted C op = Returns tx -> handler tx = Returns false) ->
    fst (invoke C that op w) = fst (invoke C this op w) /\
    store (snd (invoke C that op w)) = store (snd (invoke C this op w)) /\
    logged (invoke C that op) w = logged (invoke C this op) w /\
    history_writes (calls_made (invoke C that op) w)
    = history_writes (calls_made (invoke C this op) w).
Proof.
  intros Hnone.
  destruct (submitted C op) as [tx|e] eqn:Hsub.
  - destruct (made_of_same _ _ _ _ (run_no_handler C this op w tx Hsub Hnone))
      as (Hr & Hs & Hc & Hl).
    repeat (split; [assumption|]).
    intros that handler Hreg Hrej.
    destruct (made_of_extend _ _ _ _ _ _ _
                (run_rejected C that op w handler tx Hsub Hreg
                   (Hrej tx eq_refl)))
      as (Hr' & Hs' & Hc' & Hl').
    rewrite Hr, Hs, Hc, Hl, Hr', Hs', Hc', Hl'. repeat split.
  - destruct (made_of_extend _ _ _ _ _ _ _
                (run_not_submitted C this op w e Hsub))
      as (Hr & Hs & Hc & Hl).
    repeat (split; [assumption|]).
    intros that handler Hreg Hrej.
    destruct (made_of_extend _ _ _ _ _ _ _
                (run_not_submitted C that op w e Hsub))
      as (Hr' & Hs' & Hc' & Hl').
    rewrite Hr, Hs, Hc, Hl, Hr', Hs', Hc', Hl'. repeat split.
Qed.

Lemma no_handler_is_a_rejection_witness :
  transactionHandler new_BlockchainIntegration = None /\
  fst (invoke Demo.memory new_BlockchainIntegration Demo.creation
         (Demo.genesis Demo.memory [])) = Returns failure /\
  calls_made (invoke Demo.memory new_BlockchainIntegration Demo.creation)
    (Demo.genesis Demo.memory []) = [].
Proof.
  split; [reflexivity|].
  pose proof (no_handler_is_a_rejection Demo.memory new_BlockchainIntegration
                Demo.creation (Demo.genesis Demo.memory []) eq_refl)
    as (Hr & Hc & _).
  split; assumption.
Defined.

(** C9.  Within one call the ledger handler is invoked at most once; when
    it rejects, that single invocation is the only call the operation
    makes, and the operation ends in [{success: false}]. *)
Theorem handler_invoked_at_most_once
  (C : Collaborators) (this : BlockchainIntegration) (op : Operation)
  (w : World C) :
  length (handler_calls (calls_made (invoke C this op) w)) <= 1 /\
  forall handler tx,
    transactionHandler this = Some handler ->
    submitted C op = Returns tx ->
    handler tx = Returns false ->
    calls_made (invoke C this op) w = [CallHandler tx] /\
    fst (invoke C this op w) = Returns failure.
Proof.
  split.
  - destruct (invoke_path C this op w) as (r & s & cs & ls & P & _ & _ & Hc & _).
    rewrite Hc.
    destruct P; unfold handler_calls; cbn [filter is_handler_call];
      rewrite ?history_call_not_handler; cbn; lia.
  - intros handler tx Hreg Hsub Hh.
    destruct (made_of_extend _ _ _ _ _ _ _
                (run_rejected C this op w handler tx Hsub Hreg Hh))
      as (Hr & _ & Hc & _).
    split; assumption.
Qed.

Lemma handler_invoked_at_most_once_witness :
  length (handler_calls
            (calls_made (invoke Demo.memory Demo.accepting Demo.creation)
               (Demo.genesis Demo.memory []))) <= 1 /\
  calls_made (invoke Demo.memory Demo.rejecting Demo.verification)
    (Demo.genesis Demo.memory [])
  = [CallHandler
       {| tx_from := "pub:K"; tx_to := JString "pub:K";
          tx_data := PRODUCT_VERIFICATION "P1" "U3" true (JObject []);
          tx_signature := Some "sig:K" |}].
Proof.
  split.
  - apply (handler_invoked_at_most_once Demo.memory Demo.accepting
             Demo.creation (Demo.genesis Demo.memory [])).
  - apply (proj2 (handler_invoked_at_most_once Demo.memory Demo.rejecting
                    Demo.verification (Demo.genesis Demo.memory []))
             Demo.reject); reflexivity.
Defined.

(** C10.  Whatever happens, an operation returns a result, and that
    result has no [blockHash]. *)
Theorem result_has_no_blockHash
  (C : Collaborators) (this : BlockchainIntegration) (op : Operation)
  (w : World C) :
  exists r, fst (invoke C this op w) = Returns r /\ blockHash r = None.
Proof.
  destruct (invoke_path C this op w) as (r & s & cs & ls & P & Hr & _).
  exists r. split; [assumption|]. destruct P; reflexivity.
Qed.

(** C2, as stated, fails: the ledger accepts the creation of [P1], the
    history store refuses the write, and the operation returns
    [{success: false}]. *)
Lemma refused_write_reported_as_failure :
  ~ ledger_success_not_masked Demo.refusing Demo.accepting Demo.creation
      (Demo.genesis Demo.refusing []).
Proof.
  intros claim.
  destruct (claim Demo.accept Demo.creation_tx
              {| hr_success := false; hr_transactionId := None |} []
              eq_refl eq_refl eq_refl eq_refl eq_refl) as (h & Hr).
  vm_compute in Hr. discriminate Hr.
Qed.

(** C2, amended.  When the ledger handler accepts the transaction and the
    history write returns without success, or without a non-empty
    transaction identifier, the operation returns [{success: false}] with
    no transaction hash; it has called the handler and the history service
    once each and prints nothing. *)
Theorem failed_history_write_reported_as_failure
  (C : Collaborators) (this : BlockchainIntegration) (op : Operation)
  (w : World C) (handler : Handler) (tx : Transaction) (hr : HistoryResult)
  (s : Store C) :
  transactionHandler this = Some handler ->
  submitted C op = Returns tx ->
  handler tx = Returns true ->
  history_method C op (store w) = (Returns hr, s) ->
  history_recorded hr = None ->
  fst (invoke C this op w) = Returns failure /\
  transactionHash failure = None /\
  store (snd (invoke C this op w)) = s /\
  calls_made (invoke C this op) w = [CallHandler tx; history_call op] /\
  logged (invoke C this op) w = [].
Proof.
  intros Hreg Hsub Hh Hw Hrec.
  destruct (made_of_extend _ _ _ _ _ _ _
              (run_not_recorded C this op w handler tx Hsub Hreg Hh hr s Hw
                 Hrec))
    as (Hr & Hs & Hc & Hl).
  repeat split; assumption.
Qed.

Lemma failed_history_write_reported_as_failure_witness :
  fst (invoke Demo.refusing Demo.accepting Demo.transfer
         (Demo.genesis Demo.refusing [])) = Returns failure /\
  transactionHash failure = None /\
  store (snd (invoke Demo.refusing Demo.accepting Demo.transfer
                (Demo.genesis Demo.refusing []))) = [] /\
  calls_made (invoke Demo.refusing Demo.accepting Demo.transfer)
    (Demo.genesis Demo.refusing [])
  = [CallHandler Demo.transfer_tx; history_call Demo.transfer] /\
  logged (invoke Demo.refusing Demo.accepting Demo.transfer)
    (Demo.genesis Demo.refusing []) = [].
Proof.
  apply (failed_history_write_reported_as_failure
           Demo.refusing Demo.accepting Demo.transfer
           (Demo.genesis Demo.refusing []) Demo.accept Demo.transfer_tx
           {| hr_success := false; hr_transactionId := None |} []);
    reflexivity.
Defined.

(** C3, as stated, fails: after an accepted and recorded creation of [P1]
    the record [txn-0] of the history store has no ledger part, neither
    block hash nor transaction hash. *)
Lemma recorded_creation_not_reconciled :
  ~ record_reconciled Demo.memory Demo.accepting Demo.creation
      (Demo.genesis Demo.memory []).
Proof.
  intros claim.
  destruct (claim Demo.accept Demo.creation_tx
              {| hr_success := true; hr_transactionId := Some "txn-0" |}
              [Demo.creation_record] "txn-0"
              eq_refl eq_refl eq_refl eq_refl eq_refl)
    as (h & record & info & _ & _ & _ & Hget & Hinfo & _).
  vm_compute in Hget. injection Hget as <-. discriminate Hinfo.
Qed.

(** C3, amended.  When the ledger handler accepts the transaction and the
    history write succeeds with a transaction identifier, the result is
    [{success: true, transactionHash}] with the hash of the submitted
    transaction.  Reconciliation reads the record back and, when it is
    there, prints block hash [pending] and that hash; the history store
    stays as the write left it. *)
Theorem recorded_submission_returns_hash
  (C : Collaborators) (this : BlockchainIntegration) (op : Operation)
  (w : World C) (handler : Handler) (tx : Transaction) (hr : HistoryResult)
  (s : Store C) (transactionId h : string) :
  transactionHandler this = Some handler ->
  submitted C op = Returns tx ->
  handler tx = Returns true ->
  history_method C op (store w) = (Returns hr, s) ->
  history_recorded hr = Some transactionId ->
  getHash C tx = Returns h ->
  fst (invoke C this op w) = Returns (accepted h) /\
  transactionHash (accepted h) = Some h /\
  store (snd (invoke C this op w)) = s /\
  calls_made (invoke C this op) w
  = [CallHandler tx; history_call op; CallGetTransaction transactionId] /\
  (forall record,
     hs_getTransaction C transactionId s = Returns (Some record) ->
     logged (invoke C this op) w
     = [ConsoleLog ("Updating transaction " ++ transactionId
                    ++ " with blockchain data");
        ConsoleLog ("Block hash: pending, Transaction hash: " ++ h)]).
Proof.
  intros Hreg Hsub Hh Hw Hrec Hhash.
  destruct (made_of_extend _ _ _ _ _ _ _
              (run_reconciled C this op w handler tx Hsub Hreg Hh hr s Hw
                 transactionId Hrec h Hhash))
    as (Hr & Hs & Hc & Hl).
  repeat split; try assumption.
  intros record Hget. rewrite Hl, Hget. reflexivity.
Qed.

Lemma recorded_submission_returns_hash_witness :
  fst (invoke Demo.memory Demo.accepting Demo.creation
         (Demo.genesis Demo.memory [])) = Returns (accepted "hash:pub:K:P1") /\
  transactionHash (accepted "hash:pub:K:P1") = Some "hash:pub:K:P1" /\
  store (snd (invoke Demo.memory Demo.accepting Demo.creation
                (Demo.genesis Demo.memory []))) = [Demo.creation_record] /\
  calls_made (invoke Demo.memory Demo.accepting Demo.creation)
    (Demo.genesis Demo.memory [])
  = [CallHandler Demo.creation_tx; history_call Demo.creation;
     CallGetTransaction "txn-0"] /\
  (forall record,
     hs_getTransaction Demo.memory "txn-0" [Demo.creation_record]
     = Returns (Some record) ->
     logged (invoke Demo.memory Demo.accepting Demo.creation)
       (Demo.genesis Demo.memory [])
     = [ConsoleLog ("Updating transaction " ++ "txn-0"
                    ++ " with blockchain data");
        ConsoleLog ("Block hash: pending, Transaction hash: "
                    ++ "hash:pub:K:P1")]).
Proof.
  apply (recorded_submission_returns_hash
           Demo.memory Demo.accepting Demo.creation
           (Demo.genesis Demo.memory []) Demo.accept Demo.creation_tx
           {| hr_success := true; hr_transactionId := Some "txn-0" |}
           [Demo.creation_record] "txn-0" "hash:pub:K:P1");
    reflexivity.
Defined.

(** C5, as stated, fails: the ledger accepts the creation of [P1], the
    history store records it and then throws in [getTransaction]; the
    exception is caught and printed, and the operation returns
    [{success: true, transactionHash}], not [{success: false}]. *)
Lemma unreadable_store_reported_as_success :
  ~ failures_become_failure Demo.unread Demo.accepting Demo.creation
      (Demo.genesis Demo.unread []).
Proof.
  intros (r & Hr & claim).
  destruct (claim Reconciling "history store unavailable") as (Hfail & _).
  - eapply (throws_reconciling Demo.unread Demo.accepting Demo.creation
              (Demo.genesis Demo.unread []) Demo.accept Demo.creation_tx
              {| hr_success := true; hr_transactionId := Some "txn-0" |}
              [Demo.creation_record] "txn-0" "hash:pub:K:P1");
      reflexivity.
  - subst r. vm_compute in Hr. discriminate Hr.
Qed.

(** C5, amended.  No exception escapes an operation: it always returns a
    result.  An exception thrown before the reconciliation step (by key
    derivation, by reading [details], by signing, by the ledger handler,
    by the history write or by hashing) gives [{success: false}] and one
    [console.error] line with the message of the method's [catch] block.
    An exception thrown by [getTransaction] inside the reconciliation step
    gives one [console.error] line of that step and leaves the result
    [{success: true, transactionHash}]. *)
Theorem no_exception_escapes
  (C : Collaborators) (this : BlockchainIntegration) (op : Operation)
  (w : World C) :
  exists r,
    fst (invoke C this op w) = Returns r /\
    forall stage e,
      throws_at C this op w stage e ->
      (stage <> Reconciling ->
       r = failure /\
       logged (invoke C this op) w
       = [ConsoleError (catch_message op) (Some e)]) /\
      (stage = Reconciling ->
       exists transactionId h,
         r = accepted h /\
         logged (invoke C this op) w
         = [ConsoleError ("Error updating blockchain info for transaction "
                          ++ transactionId ++ ":") (Some e)]).
Proof.
  destruct (invoke_path C this op w) as (r & s & cs & ls & P & Hr & _ & _ & Hl).
  exists r. split; [assumption|].
  intros stage e T. rewrite Hl.
  destruct T; destruct P; try congruence;
    repeat match goal with
           | H1 : ?a = _, H2 : ?a = _ |- _ =>
               rewrite H1 in H2; inversion H2; subst; clear H2
           end;
    (split; intros Hstage; try congruence; try discriminate Hstage);
    try (split; reflexivity).
  do 2 eexists. split; [reflexivity|].
  match goal with H : hs_getTransaction _ _ _ = Throws _ |- _ => rewrite H end.
  reflexivity.
Qed.

Lemma no_exception_escapes_witness :
  exists r,
    fst (invoke Demo.memory Demo.accepting
           (ProductCreation "P1" "U1" "" JNull)
           (Demo.genesis Demo.memory [])) = Returns r /\
    r = failure /\
    logged (invoke Demo.memory Demo.accepting
              (ProductCreation "P1" "U1" "" JNull))
      (Demo.genesis Demo.memory [])
    = [ConsoleError "Error recording product creation to blockchain:"
         (Some "Invalid private key")].
Proof.
  destruct (no_exception_escapes Demo.memory Demo.accepting
              (ProductCreation "P1" "U1" "" JNull)
              (Demo.genesis Demo.memory [])) as (r & Hr & H).
  exists r. split; [exact Hr|].
  apply (H Preparing "Invalid private key").
  - apply throws_preparing. reflexivity.
  - discriminate.
Defined.

(** C6.  When ledger submission and history write have both succeeded, a
    failure inside [updateTransactionWithBlockchainInfo] is printed and
    nothing more: whether [getTransaction] finds no record or throws, the
    operation returns [{success: true, transactionHash}]. *)
Theorem reconciliation_failure_is_absorbed
  (C : Collaborators) (this : BlockchainIntegration) (op : Operation)
  (w : World C) (handler : Handler) (tx : Transaction) (hr : HistoryResult)
  (s : Store C) (transactionId h : string) :
  transactionHandler this = Some handler ->
  submitted C op = Returns tx ->
  handler tx = Returns true ->
  history_method C op (store w) = (Returns hr, s) ->
  history_recorded hr = Some transactionId ->
  getHash C tx = Returns h ->
  fst (invoke C this op w) = Returns (accepted h) /\
  (hs_getTransaction C transactionId s = Returns None ->
   logged (invoke C this op) w
   = [ConsoleError ("Transaction " ++ transactionId
                    ++ " not found for blockchain update") None]) /\
  (forall e,
     hs_getTransaction C transactionId s = Throws e ->
     logged (invoke C this op) w
     = [ConsoleError ("Error updating blockchain info for transaction "
                      ++ transactionId ++ ":") (Some e)]).
Proof.
  intros Hreg Hsub Hh Hw Hrec Hhash.
  destruct (made_of_extend _ _ _ _ _ _ _
              (run_reconciled C this op w handler tx Hsub Hreg Hh hr s Hw
                 transactionId Hrec h Hhash))
    as (Hr & _ & _ & Hl).
  split; [assumption|].
  split; [intros Hget | intros e Hget]; rewrite Hl, Hget; reflexivity.
Qed.

Lemma reconciliation_failure_is_absorbed_witness :
  hs_getTransaction Demo.unread "txn-0" [Demo.creation_record]
  = Throws "history store unavailable" /\
  fst (invoke Demo.unread Demo.accepting Demo.creation
         (Demo.genesis Demo.unread [])) = Returns (accepted "hash:pub:K:P1") /\
  logged (invoke Demo.unread Demo.accepting Demo.creation)
    (Demo.genesis Demo.unread [])
  = [ConsoleError ("Error updating blockchain info for transaction "
                   ++ "txn-0" ++ ":") (Some "history store unavailable")].
Proof.
  split; [reflexivity|].
  pose proof (reconciliation_failure_is_absorbed
                Demo.unread Demo.accepting Demo.creation
                (Demo.genesis Demo.unread []) Demo.accept Demo.creation_tx
                {| hr_success := true; hr_transactionId := Some "txn-0" |}
                [Demo.creation_record] "txn-0" "hash:pub:K:P1"
                eq_refl eq_refl eq_refl eq_refl eq_refl eq_refl)
    as (Hr & _ & Hthrow).
  split; [exact Hr | exact (Hthrow _ eq_refl)].
Defined.

(** ** The transaction an operation builds *)

Lemma sign_keeps_fields (C : Collaborators) (keyPair : KeyPair C)
  (tx tx' : Transaction) :
  Transaction_sign C keyPair tx = Returns tx' ->
  tx_from tx' = tx_from tx /\ tx_to tx' = tx_to tx /\
  tx_data tx' = tx_data tx.
Proof.
  unfold Transaction_sign.
  destruct (signature_for C keyPair tx); [|discriminate].
  intros [= <-]. repeat split.
Qed.

Lemma submitted_is_constructed (C : Collaborators) (op : Operation)
  (tx : Transaction) :
  submitted C op = Returns tx ->
  exists keyPair tx0,
    constructed C op = Returns (keyPair, tx0) /\
    tx_from tx = tx_from tx0 /\ tx_to tx = tx_to tx0.
Proof.
  unfold submitted.
  destruct (constructed C op) as [[keyPair tx0]|e]; [|discriminate].
  intros Hsign. exists keyPair, tx0.
  destruct (sign_keeps_fields C keyPair tx0 tx Hsign) as (Hf & Ht & _).
  repeat split; assumption.
Qed.

Lemma handler_call_is_submitted (C : Collaborators)
  (this : BlockchainIntegration) (op : Operation) (w : World C)
  (tx : Transaction) :
  In (CallHandler tx) (calls_made (invoke C this op) w) ->
  submitted C op = Returns tx.
Proof.
  destruct (invoke_path C this op w) as (r & s & cs & ls & P & _ & _ & Hc & _).
  rewrite Hc.
  assert (Hw : history_call op <> CallHandler tx)
    by (destruct op; discriminate).
  destruct P; cbn [In]; intuition congruence.
Qed.

(** C7.  The transaction of a transfer is addressed to
    [details.toPublicKey] when that is truthy, and to
    ["default_public_key_for_" + toUserId] otherwise: so it is built, and
    so the ledger handler receives it. *)
Theorem transfer_recipient
  (C : Collaborators) (this : BlockchainIntegration)
  (productId fromUserId toUserId : string) (fromRole toRole : UserRole)
  (privateKey : string) (details : JSValue) (w : World C) (tx : Transaction) :
  (exists keyPair,
     constructed C (ProductTransfer productId fromUserId toUserId fromRole
                                    toRole privateKey details)
     = Returns (keyPair, tx)) \/
  In (CallHandler tx)
     (calls_made (recordProductTransfer C this productId fromUserId toUserId
                                        fromRole toRole privateKey details)
                 w) ->
  exists supplied,
    get_property details "toPublicKey" = Returns supplied /\
    (truthy supplied = true -> tx_to tx = supplied) /\
    (truthy supplied = false ->
     tx_to tx = JString ("default_public_key_for_" ++ toUserId)).
Proof.
  intros H.
  assert (exists keyPair tx0,
             constructed C (ProductTransfer productId fromUserId toUserId
                              fromRole toRole privateKey details)
             = Returns (keyPair, tx0) /\ tx_to tx = tx_to tx0)
    as (keyPair & tx0 & Hc & Hto).
  { destruct H as [(keyPair & Hc) | Hin].
    - exists keyPair, tx. split; [assumption | reflexivity].
    - apply (handler_call_is_submitted C this
               (ProductTransfer productId fromUserId toUserId fromRole
                                toRole privateKey details)) in Hin.
      destruct (submitted_is_constructed _ _ _ Hin)
        as (keyPair & tx0 & Hc & _ & Hto).
      exists keyPair, tx0. split; assumption. }
  cbn [constructed] in Hc.
  destruct (getKeyPair C privateKey) as [kp|e]; [|discriminate].
  destruct (get_property details "toPublicKey") as [supplied|e];
    [|discriminate].
  injection Hc as _ <-. exists supplied. rewrite Hto. cbn. unfold js_or.
  split; [reflexivity|].
  split; intros ->; reflexivity.
Qed.

Lemma transfer_recipient_witness :
  tx_to Demo.transfer_tx = JString "04ab" /\
  forall tx,
    In (CallHandler tx)
       (calls_made (recordProductTransfer Demo.memory Demo.accepting
                      "P1" "U1" "U2" "PRODUCER" "DISTRIBUTOR" "K"
                      (JObject [("quantity", JNumber 3)]))
          (Demo.genesis Demo.memory [])) ->
    tx_to tx = JString "default_public_key_for_U2".
Proof.
  split.
  - destruct (transfer_recipient Demo.memory Demo.accepting
                "P1" "U1" "U2" "PRODUCER" "DISTRIBUTOR" "K"
                (JObject [("toPublicKey", JString "04ab")])
                (Demo.genesis Demo.memory []) Demo.transfer_tx)
      as (supplied & Hget & Hthere & _).
    + right. left. reflexivity.
    + injection Hget as <-. apply Hthere. reflexivity.
  - intros tx Hin.
    destruct (transfer_recipient Demo.memory Demo.accepting
                "P1" "U1" "U2" "PRODUCER" "DISTRIBUTOR" "K"
                (JObject [("quantity", JNumber 3)])
                (Demo.genesis Demo.memory []) tx (or_intror Hin))
      as (supplied & Hget & _ & Habsent).
    injection Hget as <-. apply Habsent. reflexivity.
Defined.

(** C8.  The transaction of a creation or of a verification has the
    public key derived from the supplied private key as its [from] and as
    its [to]: so it is built, and so the ledger handler receives it. *)
Theorem creation_and_verification_self_addressed
  (C : Collaborators) (this : BlockchainIntegration) (op : Operation)
  (w : World C) (tx : Transaction) :
  is_transfer op = false ->
  (exists keyPair, constructed C op = Returns (keyPair, tx)) \/
  In (CallHandler tx) (calls_made (invoke C this op) w) ->
  tx_to tx = JString (tx_from tx) /\
  exists keyPair,
    getKeyPair C (signing_key op) = Returns keyPair /\
    tx_from tx = getPublic C keyPair.
Proof.
  intros Hop H.
  assert (exists keyPair tx0,
             constructed C op = Returns (keyPair, tx0) /\
             tx_from tx = tx_from tx0 /\ tx_to tx = tx_to tx0)
    as (keyPair & tx0 & Hc & Hfrom & Hto).
  { destruct H as [(keyPair & Hc) | Hin].
    - exists keyPair, tx. repeat split. assumption.
    - apply handler_call_is_submitted in Hin.
      exact (submitted_is_constructed _ _ _ Hin). }
  rewrite Hfrom, Hto.
  destruct op; try discriminate Hop; cbn [constructed] in Hc;
    destruct (getKeyPair C privateKey) as [kp|e] eqn:Hkey;
    try discriminate Hc;
    injection Hc as <- <-; (split; [reflexivity|]);
    exists kp; (split; [assumption | reflexivity]).
Qed.

Lemma creation_and_verification_self_addressed_witness :
  is_transfer Demo.verification = false /\
  forall tx,
    In (CallHandler tx)
       (calls_made (invoke Demo.memory Demo.rejecting Demo.verification)
          (Demo.genesis Demo.memory [])) ->
    tx_to tx = JString (tx_from tx).
Proof.
  split; [reflexivity|].
  intros tx Hin.
  apply (creation_and_verification_self_addressed
           Demo.memory Demo.rejecting Demo.verification
           (Demo.genesis Demo.memory []) tx eq_refl (or_intror Hin)).
Defined.

(** ** Further properties of the class *)

Lemma update_runs (C : Collaborators)
  (transactionId blockHash transactionHash : string) (w : World C) :
  updateTransactionWithBlockchainInfo C transactionId blockHash
    transactionHash w
  = (Returns tt,
     extend w (store w) [CallGetTransaction transactionId]
       (reconciliation_log transactionId blockHash transactionHash
          (hs_getTransaction C transactionId (store w)))).
Proof.
  unfold updateTransactionWithBlockchainInfo, await_getTransaction,
    try_catch, bind, record_call, read_store, console_log, console_error,
    extend, reconciliation_log.
  cbn.
  destruct (hs_getTransaction C transactionId (store w)) as [[record|]|e];
    cbn; rewrite <- ?app_assoc; reflexivity.
Qed.

(** X1.  [updateTransactionWithBlockchainInfo] never throws and never
    changes the history store: all it does is one [getTransaction] call
    and one or two console lines, for any block hash and transaction hash
    it is given. *)
Theorem updateTransactionWithBlockchainInfo_only_reads
  (C : Collaborators) (transactionId blockHash transactionHash : string)
  (w : World C) :
  let update :=
    updateTransactionWithBlockchainInfo C transactionId blockHash
      transactionHash in
  fst (update w) = Returns tt /\
  store (snd (update w)) = store w /\
  calls_made update w = [CallGetTransaction transactionId] /\
  logged update w
  = reconciliation_log transactionId blockHash transactionHash
      (hs_getTransaction C transactionId (store w)) /\
  1 <= length (logged update w) <= 2.
Proof.
  intros update.
  destruct (made_of_extend _ _ _ _ _ _ _
              (update_runs C transactionId blockHash transactionHash w))
    as (Hr & Hs & Hc & Hl).
  repeat (split; [assumption|]).
  fold update in Hl. rewrite Hl.
  destruct (hs_getTransaction C transactionId (store w)) as [[record|]|e];
    cbn; lia.
Qed.

(** X2.  A result with [success: true] is only returned when a handler
    is registered and has accepted the signed transaction and the history
    write has returned a non-empty identifier; the result then carries the
    hash of that transaction, and the calls made are the handler, the
    history write and [getTransaction], in this order.  A result with
    [success: false] is [{success: false}] and nothing else. *)
Theorem success_means_accepted_and_recorded
  (C : Collaborators) (this : BlockchainIntegration) (op : Operation)
  (w : World C) (r : Result) :
  fst (invoke C this op w) = Returns r ->
  (success r = false -> r = failure) /\
  (success r = true ->
   exists handler tx hr transactionId h,
     transactionHandler this = Some handler /\
     submitted C op = Returns tx /\
     handler tx = Returns true /\
     fst (history_method C op (store w)) = Returns hr /\
     history_recorded hr = Some transactionId /\
     getHash C tx = Returns h /\
     r = accepted h /\
     calls_made (invoke C this op) w
     = [CallHandler tx; history_call op; CallGetTransaction transactionId]).
Proof.
  intros Hres.
  destruct (invoke_path C this op w)
    as (r' & s & cs & ls & P & Hr & _ & Hc & _).
  assert (r' = r) by congruence. subst r'. rewrite Hc.
  destruct P; (split; [intros Hs; try reflexivity; discriminate Hs
                      | intros Hs; try discriminate Hs]).
  exists handler, tx, hr, transactionId, h.
  match goal with
  | Hw : history_method _ _ _ = _ |- _ => rewrite Hw
  end.
  repeat split; assumption.
Qed.

Lemma success_means_accepted_and_recorded_witness :
  fst (invoke Demo.memory Demo.accepting Demo.transfer
         (Demo.genesis Demo.memory []))
  = Returns (accepted "hash:pub:K:P1") /\
  exists handler tx hr transactionId h,
    transactionHandler Demo.accepting = Some handler /\
    submitted Demo.memory Demo.transfer = Returns tx /\
    handler tx = Returns true /\
    fst (history_method Demo.memory Demo.transfer []) = Returns hr /\
    history_recorded hr = Some transactionId /\
    getHash Demo.memory tx = Returns h /\
    accepted "hash:pub:K:P1" = accepted h /\
    calls_made (invoke Demo.memory Demo.accepting Demo.transfer)
      (Demo.genesis Demo.memory [])
    = [CallHandler tx; history_call Demo.transfer;
       CallGetTransaction transactionId].
Proof.
  split; [reflexivity|].
  apply (proj2 (success_means_accepted_and_recorded
                  Demo.memory Demo.accepting Demo.transfer
                  (Demo.genesis Demo.memory [])
                  (accepted "hash:pub:K:P1") eq_refl)).
  reflexivity.
Defined.

Lemma key_failure_not_submitted (C : Collaborators) (op : Operation)
  (e : exn) :
  getKeyPair C (signing_key op) = Throws e -> submitted C op = Throws e.
Proof.
  unfold submitted. destruct op; cbn [signing_key constructed];
    intros ->; reflexivity.
Qed.

(** X3.  When [getKeyPair] throws on the private key, the operation
    returns [{success: false}], prints the error under the message of its
    [catch] block, and calls neither the ledger handler nor the history
    service. *)
Theorem invalid_key_submits_nothing
  (C : Collaborators) (this : BlockchainIntegration) (op : Operation)
  (w : World C) (e : exn) :
  getKeyPair C (signing_key op) = Throws e ->
  fst (invoke C this op w) = Returns failure /\
  store (snd (invoke C this op w)) = store w /\
  calls_made (invoke C this op) w = [] /\
  logged (invoke C this op) w = [ConsoleError (catch_message op) (Some e)].
Proof.
  intros Hkey.
  exact (made_of_extend _ _ _ _ _ _ _
           (run_not_submitted C this op w e
              (key_failure_not_submitted C op e Hkey))).
Qed.

Lemma invalid_key_submits_nothing_witness :
  getKeyPair Demo.memory
    (signing_key (ProductVerification "P1" "U3" "INSPECTOR" "" true JNull))
  = Throws "Invalid private key" /\
  calls_made
    (invoke Demo.memory Demo.accepting
       (ProductVerification "P1" "U3" "INSPECTOR" "" true JNull))
    (Demo.genesis Demo.memory []) = [] /\
  logged
    (invoke Demo.memory Demo.accepting
       (ProductVerification "P1" "U3" "INSPECTOR" "" true JNull))
    (Demo.genesis Demo.memory [])
  = [ConsoleError "Error recording product verification to blockchain:"
       (Some "Invalid private key")].
Proof.
  split; [reflexivity|].
  destruct (invalid_key_submits_nothing Demo.memory Demo.accepting
              (ProductVerification "P1" "U3" "INSPECTOR" "" true JNull)
              (Demo.genesis Demo.memory []) "Invalid private key" eq_refl)
    as (_ & _ & Hc & Hl).
  split; assumption.
Defined.

(** X4.  When signing the transaction throws, the transaction is not
    handed to the ledger handler: the operation returns
    [{success: false}], prints the error, and makes no call. *)
Theorem failed_signature_submits_nothing
  (C : Collaborators) (this : BlockchainIntegration) (op : Operation)
  (w : World C) (keyPair : KeyPair C) (tx : Transaction) (e : exn) :
  constructed C op = Returns (keyPair, tx) ->
  signature_for C keyPair tx = Throws e ->
  fst (invoke C this op w) = Returns failure /\
  store (snd (invoke C this op w)) = store w /\
  calls_made (invoke C this op) w = [] /\
  logged (invoke C this op) w = [ConsoleError (catch_message op) (Some e)].
Proof.
  intros Hc Hsig.
  apply made_of_extend, run_not_submitted.
  unfold submitted, Transaction_sign. rewrite Hc, Hsig. reflexivity.
Qed.

Lemma failed_signature_submits_nothing_witness :
  calls_made (invoke Faults.unsigned Demo.accepting Demo.creation)
    (Demo.genesis Faults.unsigned []) = [] /\
  fst (invoke Faults.unsigned Demo.accepting Demo.creation
         (Demo.genesis Faults.unsigned [])) = Returns failure.
Proof.
  destruct (failed_signature_submits_nothing
              Faults.unsigned Demo.accepting Demo.creation
              (Demo.genesis Faults.unsigned []) "K"
              (new_Transaction "pub:K" (JString "pub:K")
                 (PRODUCT_CREATE "P1" (JObject [("weight", JNumber 10)])))
              "Invalid signing key" eq_refl eq_refl)
    as (Hr & _ & Hc & _).
  split; assumption.
Defined.

(** X5.  A transfer whose [details] is [null] or [undefined] fails on
    reading [details.toPublicKey]: with a valid key and whatever the
    handler, the operation returns [{success: false}], prints the
    [TypeError] and makes no call. *)
Theorem transfer_without_details_submits_nothing
  (C : Collaborators) (this : BlockchainIntegration)
  (productId fromUserId toUserId : string) (fromRole toRole : UserRole)
  (privateKey : string) (details : JSValue) (w : World C)
  (keyPair : KeyPair C) :
  getKeyPair C privateKey = Returns keyPair ->
  details = JNull \/ details = JUndefined ->
  let call :=
    recordProductTransfer C this productId fromUserId toUserId fromRole
      toRole privateKey details in
  exists e,
    get_property details "toPublicKey" = Throws e /\
    fst (call w) = Returns failure /\
    store (snd (call w)) = store w /\
    calls_made call w = [] /\
    logged call w
    = [ConsoleError "Error recording product transfer to blockchain:"
         (Some e)].
Proof.
  intros Hkey Hnull call.
  assert (exists e, get_property details "toPublicKey" = Throws e)
    as (e & He) by (destruct Hnull; subst; eexists; reflexivity).
  exists e. split; [assumption|].
  apply (made_of_extend C w call).
  apply (run_not_submitted C this
           (ProductTransfer productId fromUserId toUserId fromRole toRole
                            privateKey details)).
  unfold submitted. cbn [constructed]. rewrite Hkey, He. reflexivity.
Qed.

Lemma transfer_without_details_submits_nothing_witness :
  exists e,
    get_property JNull "toPublicKey" = Throws e /\
    fst (recordProductTransfer Demo.memory Demo.accepting "P1" "U1" "U2"
           "PRODUCER" "DISTRIBUTOR" "K" JNull (Demo.genesis Demo.memory []))
    = Returns failure /\
    store (snd (recordProductTransfer Demo.memory Demo.accepting "P1" "U1"
                  "U2" "PRODUCER" "DISTRIBUTOR" "K" JNull
                  (Demo.genesis Demo.memory []))) = [] /\
    calls_made (recordProductTransfer Demo.memory Demo.accepting "P1" "U1"
                  "U2" "PRODUCER" "DISTRIBUTOR" "K" JNull)
      (Demo.genesis Demo.memory []) = [] /\
    logged (recordProductTransfer Demo.memory Demo.accepting "P1" "U1"
              "U2" "PRODUCER" "DISTRIBUTOR" "K" JNull)
      (Demo.genesis Demo.memory [])
    = [ConsoleError "Error recording product transfer to blockchain:"
         (Some e)].
Proof.
  apply (transfer_without_details_submits_nothing
           Demo.memory Demo.accepting "P1" "U1" "U2" "PRODUCER"
           "DISTRIBUTOR" "K" JNull (Demo.genesis Demo.memory []) "K"
           eq_refl (or_introl eq_refl)).
Defined.

(** X6.  Once the handler has accepted the transaction, the history
    method of the operation is called exactly once, and the store the
    operation leaves is the store that call leaves, whatever the result
    returned to the caller: a [{success: false}] that follows a failed
    write or a failed hash comes after the ledger has accepted. *)
Theorem accepted_submission_records_once
  (C : Collaborators) (this : BlockchainIntegration) (op : Operation)
  (w : World C) (handler : Handler) (tx : Transaction) :
  transactionHandler this = Some handler ->
  submitted C op = Returns tx ->
  handler tx = Returns true ->
  history_writes (calls_made (invoke C this op) w) = [history_call op] /\
  handler_calls (calls_made (invoke C this op) w) = [CallHandler tx] /\
  store (snd (invoke C this op w)) = snd (history_method C op (store w)).
Proof.
  intros Hreg Hsub Hacc.
  destruct (invoke_path C this op w) as (r & s & cs & ls & P & _ & Hs & Hc & _).
  rewrite Hs, Hc.
  assert (Hw : is_history_write (history_call op) = true)
    by (destruct op; reflexivity).
  assert (Hn : is_handler_call (history_call op) = false)
    by (destruct op; reflexivity).
  destruct P; try congruence;
    repeat match goal with
           | H1 : ?a = _, H2 : ?a = _ |- _ =>
               rewrite H1 in H2; inversion H2; subst; clear H2
           end;
    unfold history_writes, handler_calls;
    cbn [filter is_history_write is_handler_call];
    rewrite Hw, Hn;
    match goal with
    | H : history_method _ _ _ = _ |- _ => rewrite H
    end;
    repeat split.
Qed.

Lemma accepted_submission_records_once_witness :
  history_writes
    (calls_made (invoke Demo.unread Demo.accepting Demo.transfer)
       (Demo.genesis Demo.unread []))
  = [history_call Demo.transfer] /\
  handler_calls
    (calls_made (invoke Demo.unread Demo.accepting Demo.transfer)
       (Demo.genesis Demo.unread []))
  = [CallHandler Demo.transfer_tx] /\
  store (snd (invoke Demo.unread Demo.accepting Demo.transfer
                (Demo.genesis Demo.unread [])))
  = snd (history_method Demo.unread Demo.transfer []).
Proof.
  apply (accepted_submission_records_once
           Demo.unread Demo.accepting Demo.transfer
           (Demo.genesis Demo.unread []) Demo.accept Demo.transfer_tx);
    reflexivity.
Defined.

Lemma submitted_carries_payload (C : Collaborators) (op : Operation)
  (tx : Transaction) :
  submitted C op = Returns tx ->
  exists keyPair,
    getKeyPair C (signing_key op) = Returns keyPair /\
    tx_from tx = getPublic C keyPair /\
    tx_data tx = payload op.
Proof.
  unfold submitted.
  destruct (constructed C op) as [[keyPair tx0]|e] eqn:Hc; [|discriminate].
  intros Hsign.
  destruct (sign_keeps_fields C keyPair tx0 tx Hsign) as (-> & _ & ->).
  destruct op; cbn [constructed signing_key payload] in *;
    destruct (getKeyPair C privateKey) as [kp|e]; try discriminate Hc.
  - injection Hc as <- <-. exists kp. repeat split.
  - destruct (get_property details "toPublicKey"); [|discriminate Hc].
    injection Hc as <- <-. exists kp. repeat split.
  - injection Hc as <- <-. exists kp. repeat split.
Qed.

(** X7.  Every transaction handed to the ledger handler comes from the
    public key of the key pair derived from the supplied private key, for
    a transfer too, and its [data] is the payload of the operation: the
    type of the event with the product, the users and the details the
    caller gave, unchanged. *)
Theorem handler_receives_payload
  (C : Collaborators) (this : BlockchainIntegration) (op : Operation)
  (w : World C) (tx : Transaction) :
  In (CallHandler tx) (calls_made (invoke C this op) w) ->
  exists keyPair,
    getKeyPair C (signing_key op) = Returns keyPair /\
    tx_from tx = getPublic C keyPair /\
    tx_data tx = payload op.
Proof.
  intros Hin.
  apply submitted_carries_payload.
  exact (handler_call_is_submitted C this op w tx Hin).
Qed.

Lemma handler_receives_payload_witness :
  In (CallHandler Demo.transfer_tx)
     (calls_made (invoke Demo.memory Demo.rejecting Demo.transfer)
        (Demo.genesis Demo.memory [])) /\
  exists keyPair,
    getKeyPair Demo.memory (signing_key Demo.transfer) = Returns keyPair /\
    tx_from Demo.transfer_tx = getPublic Demo.memory keyPair /\
    tx_data Demo.transfer_tx = payload Demo.transfer.
Proof.
  assert (Hin : In (CallHandler Demo.transfer_tx)
                   (calls_made (invoke Demo.memory Demo.rejecting
                                  Demo.transfer)
                      (Demo.genesis Demo.memory [])))
    by (left; reflexivity).
  split; [exact Hin|].
  exact (handler_receives_payload Demo.memory Demo.rejecting Demo.transfer
           (Demo.genesis Demo.memory []) Demo.transfer_tx Hin).
Defined.

(** X8.  The collaborators are called in one order, each at most once:
    the ledger handler with the signed transaction, then the history
    method of the operation with the arguments of the caller, then
    [getTransaction]; a call stops after any of them or before the
    first. *)
Theorem calls_follow_protocol
  (C : Collaborators) (this : BlockchainIntegration) (op : Operation)
  (w : World C) :
  calls_made (invoke C this op) w = [] \/
  exists tx,
    submitted C op = Returns tx /\
    (calls_made (invoke C this op) w = [CallHandler tx] \/
     calls_made (invoke C this op) w = [CallHandler tx; history_call op] \/
     exists hr transactionId,
       fst (history_method C op (store w)) = Returns hr /\
       history_recorded hr = Some transactionId /\
       calls_made (invoke C this op) w
       = [CallHandler tx; history_call op;
          CallGetTransaction transactionId]).
Proof.
  destruct (invoke_path C this op w) as (r & s & cs & ls & P & _ & _ & Hc & _).
  rewrite Hc.
  destruct P; try (left; reflexivity); right; exists tx;
    (split; [assumption|]); auto.
  right. right. exists hr, transactionId.
  match goal with
  | H : history_method _ _ _ = _ |- _ => rewrite H
  end.
  repeat split. assumption.
Qed.

(** X9.  A ledger handler that throws is treated as one that rejects,
    apart from the console: the operation returns [{success: false}], the
    handler has been called once, the history service is not called and
    the store is unchanged; the error is printed under the message of the
    [catch] block. *)
Theorem throwing_handler_records_nothing
  (C : Collaborators) (this : BlockchainIntegration) (op : Operation)
  (w : World C) (handler : Handler) (tx : Transaction) (e : exn) :
  transactionHandler this = Some handler ->
  submitted C op = Returns tx ->
  handler tx = Throws e ->
  fst (invoke C this op w) = Returns failure /\
  store (snd (invoke C this op w)) = store w /\
  calls_made (invoke C this op) w = [CallHandler tx] /\
  logged (invoke C this op) w = [ConsoleError (catch_message op) (Some e)].
Proof.
  intros Hreg Hsub Hh.
  exact (made_of_extend _ _ _ _ _ _ _
           (run_handler_throws C this op w handler tx Hsub Hreg e Hh)).
Qed.

Lemma throwing_handler_records_nothing_witness :
  fst (invoke Demo.memory Faults.unreachable Demo.verification
         (Demo.genesis Demo.memory [])) = Returns failure /\
  store (snd (invoke Demo.memory Faults.unreachable Demo.verification
                (Demo.genesis Demo.memory []))) = [] /\
  calls_made (invoke Demo.memory Faults.unreachable Demo.verification)
    (Demo.genesis Demo.memory []) = [CallHandler Faults.verification_tx] /\
  logged (invoke Demo.memory Faults.unreachable Demo.verification)
    (Demo.genesis Demo.memory [])
  = [ConsoleError (catch_message Demo.verification) (Some "ledger offline")].
Proof.
  apply (throwing_handler_records_nothing
           Demo.memory Faults.unreachable Demo.verification
           (Demo.genesis Demo.memory []) Faults.offline
           Faults.verification_tx "ledger offline");
    reflexivity.
Defined.

(** X10.  [getInstance] creates the object once and never replaces it:
    after two registrations through [getInstance()], on a class in any
    state, a method called through [getInstance()] runs with the handler
    registered last and leaves the class as it is; on the class as loaded,
    with no registration, it runs without a handler. *)
Theorem singleton_runs_with_last_handler
  (C : Collaborators) (cls : Class) (first last : Handler) (op : Operation)
  (w : World C) :
  invoke_instance C (register last (register first cls)) op w
  = (invoke C (setTransactionHandler last new_BlockchainIntegration) op w,
     register last (register first cls)) /\
  register last (register first cls) = register last cls /\
  fst (getInstance (snd (getInstance cls)))
  = fst (getInstance cls) /\
  invoke_instance C loaded op w
  = (invoke C new_BlockchainIntegration op w,
     {| instance := Some new_BlockchainIntegration |}).
Proof.
  unfold invoke_instance, register, getInstance, loaded.
  destruct cls as [[this|]]; cbn; repeat split.
Qed.

(** ** Properties of the wallet registration route *)

Lemma incomplete_condition (data : JSValue) :
  (negb (truthy (RegisterWallet.field data "name"))
   || negb (truthy (RegisterWallet.field data "role"))
   || negb (truthy (RegisterWallet.field data "address"))
   || negb (truthy (RegisterWallet.field data "signature"))
   || negb (truthy (RegisterWallet.field data "message")))%bool
  = Wallet.incomplete data.
Proof.
  unfold Wallet.incomplete, Wallet.required. cbn [existsb].
  rewrite Bool.orb_false_r, !Bool.orb_assoc. reflexivity.
Qed.

Lemma preview_of_string_or_falsy (message : JSValue)
  (t : RegisterWallet.Trace) :
  truthy message = false \/ Wallet.is_string message = true ->
  RegisterWallet.message_preview message t = (RegisterWallet.Value tt, t).
Proof.
  unfold RegisterWallet.message_preview.
  intros [Hf | Hs].
  - rewrite Hf. reflexivity.
  - destruct message; try discriminate Hs.
    destruct (truthy (JString s)); reflexivity.
Qed.

Section Route.
Variable E : RegisterWallet.Environment.
Variable data : JSValue.
Hypothesis Hreq : RegisterWallet.req_json E = Returns data.
Hypothesis Hobj : RegisterWallet.nullish data = false.

Ltac route :=
  unfold Wallet.run, RegisterWallet.POST, RegisterWallet.attempt,
    RegisterWallet.then_, RegisterWallet.await; rewrite Hreq, Hobj;
  cbv beta iota zeta delta [RegisterWallet.unit_].

Lemma route_incomplete :
  truthy (RegisterWallet.field data "message") = false \/
  Wallet.is_string (RegisterWallet.field data "message") = true ->
  Wallet.incomplete data = true ->
  Wallet.run E
  = (RegisterWallet.Value
       {| RegisterWallet.nr_body :=
            RegisterWallet.Failed "Missing required fields" None;
          RegisterWallet.nr_status := 400 |},
     {| RegisterWallet.fetched := [];
        RegisterWallet.printed :=
          [RegisterWallet.Log "Processing wallet registration:";
           RegisterWallet.Error "Missing required fields:"] |}).
Proof.
  intros Hmsg Hinc. route.
  rewrite (preview_of_string_or_falsy _ _ Hmsg).
  rewrite incomplete_condition, Hinc. reflexivity.
Qed.

Lemma route_not_a_string :
  truthy (RegisterWallet.field data "message") = true ->
  Wallet.is_string (RegisterWallet.field data "message") = false ->
  Wallet.run E
  = (RegisterWallet.Value
       {| RegisterWallet.nr_body :=
            RegisterWallet.Failed
              "An error occurred during wallet registration"
              (Some RegisterWallet.NotAFunction);
          RegisterWallet.nr_status := 500 |},
     {| RegisterWallet.fetched := [];
        RegisterWallet.printed :=
          [RegisterWallet.Error "Error in register-wallet API route:"] |}).
Proof.
  intros Ht Hs. route.
  unfold RegisterWallet.message_preview. rewrite Ht.
  destruct (RegisterWallet.field data "message"); try discriminate Hs;
    reflexivity.
Qed.

Section Complete.
Hypothesis Hcomplete : Wallet.incomplete data = false.
Hypothesis Hstring :
  Wallet.is_string (RegisterWallet.field data "message") = true.

Ltac relay :=
  route;
  rewrite (preview_of_string_or_falsy _ _ (or_intror Hstring));
  rewrite incomplete_condition, Hcomplete;
  unfold RegisterWallet.await_fetch, RegisterWallet.console_log;
  fold (Wallet.endpoint E); fold (Wallet.forwarded data);
  fold (Wallet.init_for data).

Lemma route_fetch_throws (e : exn) :
  RegisterWallet.fetch E (Wallet.endpoint E) (Wallet.init_for data)
  = Throws e ->
  Wallet.answered E data (RegisterWallet.Failed "Error connecting to server"
              (Some (RegisterWallet.Rejection e))) 503.
Proof.
  intros Hf. unfold Wallet.answered. relay. rewrite Hf. split; reflexivity.
Qed.

Lemma route_no_response :
  RegisterWallet.fetch E (Wallet.endpoint E) (Wallet.init_for data)
  = Returns None ->
  Wallet.answered E data (RegisterWallet.Failed "No response from server" None) 502.
Proof.
  intros Hf. unfold Wallet.answered. relay. rewrite Hf. split; reflexivity.
Qed.

Section Answered.
Variable response : RegisterWallet.Response.
Hypothesis Hfetch :
  RegisterWallet.fetch E (Wallet.endpoint E) (Wallet.init_for data)
  = Returns (Some response).

Lemma route_unparsable (e : exn) :
  RegisterWallet.json response = Throws e ->
  Wallet.answered E data (RegisterWallet.Failed "Invalid response from server" None) 502.
Proof.
  intros Hj. unfold Wallet.answered. relay. rewrite Hfetch. cbn. rewrite Hj.
  split; reflexivity.
Qed.

Lemma route_unreadable (result : JSValue) :
  RegisterWallet.json response = Returns result ->
  RegisterWallet.nullish result = true ->
  Wallet.answered E data (RegisterWallet.Failed "Error connecting to server"
              (Some RegisterWallet.CannotRead)) 503.
Proof.
  intros Hj Hn. unfold Wallet.answered. relay. rewrite Hfetch. cbn. rewrite Hj.
  cbn. rewrite Hn. split; reflexivity.
Qed.

Lemma route_forwarded (result : JSValue) (r : RegisterWallet.NextResponse) :
  RegisterWallet.json response = Returns result ->
  RegisterWallet.nullish result = false ->
  RegisterWallet.NextResponse_json (RegisterWallet.Forwarded result)
    (RegisterWallet.status response) = Some r ->
  fst (Wallet.run E) = RegisterWallet.Value r /\
  RegisterWallet.fetched (snd (Wallet.run E))
  = [(Wallet.endpoint E, Wallet.init_for data)].
Proof.
  intros Hj Hn Hs. relay. rewrite Hfetch. cbn. rewrite Hj.
  cbn. rewrite Hn. cbn. unfold RegisterWallet.respond. rewrite Hs.
  split; reflexivity.
Qed.

Lemma route_refused_status (result : JSValue) :
  RegisterWallet.json response = Returns result ->
  RegisterWallet.nullish result = false ->
  RegisterWallet.NextResponse_json (RegisterWallet.Forwarded result)
    (RegisterWallet.status response) = None ->
  Wallet.answered E data (RegisterWallet.Failed "Error connecting to server"
              (Some (RegisterWallet.InvalidStatus
                       (RegisterWallet.status response)))) 503.
Proof.
  intros Hj Hn Hs. unfold Wallet.answered. relay. rewrite Hfetch. cbn. rewrite Hj.
  cbn. rewrite Hn. cbn. unfold RegisterWallet.respond. rewrite Hs.
  split; reflexivity.
Qed.
End Answered.
End Complete.
End Route.

Lemma route_unparsed_request (E : RegisterWallet.Environment) (e : exn) :
  RegisterWallet.req_json E = Throws e ->
  Wallet.run E
  = (RegisterWallet.Value
       {| RegisterWallet.nr_body :=
            RegisterWallet.Failed
              "An error occurred during wallet registration"
              (Some (RegisterWallet.Rejection e));
          RegisterWallet.nr_status := 500 |},
     {| RegisterWallet.fetched := [];
        RegisterWallet.printed :=
          [RegisterWallet.Error "Error in register-wallet API route:"] |}).
Proof.
  intros Hreq.
  unfold Wallet.run, RegisterWallet.POST, RegisterWallet.attempt,
    RegisterWallet.then_, RegisterWallet.await.
  rewrite Hreq. reflexivity.
Qed.

Lemma route_nullish_request (E : RegisterWallet.Environment)
  (data : JSValue) :
  RegisterWallet.req_json E = Returns data ->
  RegisterWallet.nullish data = true ->
  Wallet.run E
  = (RegisterWallet.Value
       {| RegisterWallet.nr_body :=
            RegisterWallet.Failed
              "An error occurred during wallet registration"
              (Some RegisterWallet.CannotDestructure);
          RegisterWallet.nr_status := 500 |},
     {| RegisterWallet.fetched := [];
        RegisterWallet.printed :=
          [RegisterWallet.Error "Error in register-wallet API route:"] |}).
Proof.
  intros Hreq Hn.
  unfold Wallet.run, RegisterWallet.POST, RegisterWallet.attempt,
    RegisterWallet.then_, RegisterWallet.await.
  rewrite Hreq, Hn. reflexivity.
Qed.

Lemma complete_has_message (data : JSValue) :
  Wallet.incomplete data = false ->
  truthy (RegisterWallet.field data "message") = true.
Proof.
  unfold Wallet.incomplete, Wallet.required. cbn [existsb].
  destruct (truthy (RegisterWallet.field data "message")); [reflexivity|].
  cbn. rewrite !Bool.orb_true_r. discriminate.
Qed.

Lemma accepted_status (b : RegisterWallet.Body) (s : Z)
  (r : RegisterWallet.NextResponse) :
  RegisterWallet.NextResponse_json b s = Some r ->
  r = {| RegisterWallet.nr_body := b; RegisterWallet.nr_status := s |}.
Proof.
  unfold RegisterWallet.NextResponse_json.
  destruct (_ && _)%bool; [|discriminate]. intros [= <-]. reflexivity.
Qed.

(** Every call of the handler ends in one of these ways. *)
Lemma route_outcome (E : RegisterWallet.Environment) :
  exists r,
    fst (Wallet.run E) = RegisterWallet.Value r /\
    ((RegisterWallet.fetched (snd (Wallet.run E)) = [] /\
      ((r = {| RegisterWallet.nr_body :=
                 RegisterWallet.Failed "Missing required fields" None;
               RegisterWallet.nr_status := 400 |} /\
        exists data,
          RegisterWallet.req_json E = Returns data /\
          Wallet.incomplete data = true) \/
       exists x,
         r = {| RegisterWallet.nr_body :=
                  RegisterWallet.Failed
                    "An error occurred during wallet registration" (Some x);
                RegisterWallet.nr_status := 500 |})) \/
     exists data,
       RegisterWallet.req_json E = Returns data /\
       Wallet.incomplete data = false /\
       Wallet.is_string (RegisterWallet.field data "message") = true /\
       RegisterWallet.fetched (snd (Wallet.run E))
       = [(Wallet.endpoint E, Wallet.init_for data)] /\
       ((exists m,
           r = {| RegisterWallet.nr_body := RegisterWallet.Failed m None;
                  RegisterWallet.nr_status := 502 |}) \/
        (exists x,
           r = {| RegisterWallet.nr_body :=
                    RegisterWallet.Failed "Error connecting to server"
                                          (Some x);
                  RegisterWallet.nr_status := 503 |}) \/
        exists response result,
          RegisterWallet.fetch E (Wallet.endpoint E) (Wallet.init_for data)
          = Returns (Some response) /\
          RegisterWallet.json response = Returns result /\
          RegisterWallet.nullish result = false /\
          r = {| RegisterWallet.nr_body := RegisterWallet.Forwarded result;
                 RegisterWallet.nr_status := RegisterWallet.status response
              |})).
Proof.
  destruct (RegisterWallet.req_json E) as [data|e] eqn:Hreq.
  2:{ rewrite (route_unparsed_request E e Hreq). eexists.
      split; [reflexivity|]. left. split; [reflexivity|]. right.
      eexists. reflexivity. }
  destruct (RegisterWallet.nullish data) eqn:Hobj.
  { rewrite (route_nullish_request E data Hreq Hobj). eexists.
    split; [reflexivity|]. left. split; [reflexivity|]. right.
    eexists. reflexivity. }
  destruct (Wallet.is_string (RegisterWallet.field data "message")) eqn:Hs.
  2:{ destruct (truthy (RegisterWallet.field data "message")) eqn:Ht.
      - rewrite (route_not_a_string E data Hreq Hobj Ht Hs). eexists.
        split; [reflexivity|]. left. split; [reflexivity|]. right.
        eexists. reflexivity.
      - assert (Hinc : Wallet.incomplete data = true).
        { destruct (Wallet.incomplete data) eqn:Hi; [reflexivity|].
          rewrite (complete_has_message data Hi) in Ht. discriminate Ht. }
        rewrite (route_incomplete E data Hreq Hobj (or_introl Ht) Hinc).
        eexists. split; [reflexivity|]. left. split; [reflexivity|]. left.
        split; [reflexivity|]. exists data. split; [reflexivity|assumption]. }
  destruct (Wallet.incomplete data) eqn:Hinc.
  { rewrite (route_incomplete E data Hreq Hobj (or_intror Hs) Hinc).
    eexists. split; [reflexivity|]. left. split; [reflexivity|]. left.
    split; [reflexivity|]. exists data. split; [reflexivity|assumption]. }
  destruct (RegisterWallet.fetch E (Wallet.endpoint E) (Wallet.init_for data))
    as [[response|]|e] eqn:Hfetch.
  - destruct (RegisterWallet.json response) as [result|e] eqn:Hj.
    + destruct (RegisterWallet.nullish result) eqn:Hn.
      * destruct (route_unreadable E data Hreq Hobj Hinc Hs response Hfetch
                    result Hj Hn) as (Hr & Hf).
        eexists. split; [exact Hr|]. right. exists data.
        repeat (split; [first [reflexivity | assumption]|]).
        right. left. eexists. reflexivity.
      * destruct (RegisterWallet.NextResponse_json
                    (RegisterWallet.Forwarded result)
                    (RegisterWallet.status response)) as [r|] eqn:Hst.
        -- destruct (route_forwarded E data Hreq Hobj Hinc Hs response Hfetch
                       result r Hj Hn Hst) as (Hr & Hf).
           exists r. split; [exact Hr|]. right. exists data.
           repeat (split; [first [reflexivity | assumption]|]).
           right. right. exists response, result.
           repeat (split; [first [reflexivity | assumption]|]).
           exact (accepted_status _ _ _ Hst).
        -- destruct (route_refused_status E data Hreq Hobj Hinc Hs response
                       Hfetch result Hj Hn Hst) as (Hr & Hf).
           eexists. split; [exact Hr|]. right. exists data.
           repeat (split; [first [reflexivity | assumption]|]).
           right. left. eexists. reflexivity.
    + destruct (route_unparsable E data Hreq Hobj Hinc Hs response Hfetch e Hj)
        as (Hr & Hf).
      eexists. split; [exact Hr|]. right. exists data.
      repeat (split; [first [reflexivity | assumption]|]).
      left. eexists. reflexivity.
  - destruct (route_no_response E data Hreq Hobj Hinc Hs Hfetch) as (Hr & Hf).
    eexists. split; [exact Hr|]. right. exists data.
    repeat (split; [first [reflexivity | assumption]|]).
    left. eexists. reflexivity.
  - destruct (route_fetch_throws E data Hreq Hobj Hinc Hs e Hfetch)
      as (Hr & Hf).
    eexists. split; [exact Hr|]. right. exists data.
    repeat (split; [first [reflexivity | assumption]|]).
    right. left. eexists. reflexivity.
Qed.

(** X11.  A request that lacks one of [name], [role], [address],
    [signature] and [message], or has a falsy value for it, is answered
    with status 400 and [Missing required fields], and the back end is not
    contacted.  The request body has to be an object or another value that
    can be destructured, and its [message], if truthy, a string. *)
Theorem register_wallet_rejects_incomplete_request
  (E : RegisterWallet.Environment) (data : JSValue) :
  RegisterWallet.req_json E = Returns data ->
  RegisterWallet.nullish data = false ->
  truthy (RegisterWallet.field data "message") = false \/
  Wallet.is_string (RegisterWallet.field data "message") = true ->
  (exists k, In k Wallet.required /\
             truthy (RegisterWallet.field data k) = false) ->
  fst (Wallet.run E)
  = RegisterWallet.Value
      {| RegisterWallet.nr_body :=
           RegisterWallet.Failed "Missing required fields" None;
         RegisterWallet.nr_status := 400 |} /\
  RegisterWallet.fetched (snd (Wallet.run E)) = [].
Proof.
  intros Hreq Hobj Hmsg (k & Hk & Hfalsy).
  assert (Hinc : Wallet.incomplete data = true).
  { unfold Wallet.incomplete. apply existsb_exists. exists k.
    split; [assumption|]. rewrite Hfalsy. reflexivity. }
  rewrite (route_incomplete E data Hreq Hobj Hmsg Hinc).
  split; reflexivity.
Qed.

Lemma register_wallet_rejects_incomplete_request_witness :
  fst (Wallet.run
         (Wallet.backend
            (Returns (JObject [("name", JString "Sari");
                               ("role", JString "");
                               ("address", JString "0xabc")]))
            (Returns (Some Wallet.conflict))))
  = RegisterWallet.Value
      {| RegisterWallet.nr_body :=
           RegisterWallet.Failed "Missing required fields" None;
         RegisterWallet.nr_status := 400 |} /\
  RegisterWallet.fetched
    (snd (Wallet.run
            (Wallet.backend
               (Returns (JObject [("name", JString "Sari");
                                  ("role", JString "");
                                  ("address", JString "0xabc")]))
               (Returns (Some Wallet.conflict))))) = [].
Proof.
  apply (register_wallet_rejects_incomplete_request
           (Wallet.backend
              (Returns (JObject [("name", JString "Sari");
                                 ("role", JString "");
                                 ("address", JString "0xabc")]))
              (Returns (Some Wallet.conflict)))
           (JObject [("name", JString "Sari"); ("role", JString "");
                     ("address", JString "0xabc")])
           eq_refl eq_refl (or_introl eq_refl)).
  exists "role". split; [right; left; reflexivity | reflexivity].
Defined.

(** X12.  A request whose [message] is truthy but not a string is
    answered with status 500, not 400, whatever its other fields: the
    handler calls [message.substring] for its first log line, before it
    checks the fields.  The back end is not contacted. *)
Theorem register_wallet_fails_on_message_that_is_no_string
  (E : RegisterWallet.Environment) (data : JSValue) :
  RegisterWallet.req_json E = Returns data ->
  RegisterWallet.nullish data = false ->
  truthy (RegisterWallet.field data "message") = true ->
  Wallet.is_string (RegisterWallet.field data "message") = false ->
  fst (Wallet.run E)
  = RegisterWallet.Value
      {| RegisterWallet.nr_body :=
           RegisterWallet.Failed
             "An error occurred during wallet registration"
             (Some RegisterWallet.NotAFunction);
         RegisterWallet.nr_status := 500 |} /\
  RegisterWallet.fetched (snd (Wallet.run E)) = [].
Proof.
  intros Hreq Hobj Ht Hs.
  rewrite (route_not_a_string E data Hreq Hobj Ht Hs). split; reflexivity.
Qed.

Lemma register_wallet_fails_on_message_that_is_no_string_witness :
  fst (Wallet.run
         (Wallet.backend (Returns (JObject [("message", JNumber 7)]))
            (Returns (Some Wallet.conflict))))
  = RegisterWallet.Value
      {| RegisterWallet.nr_body :=
           RegisterWallet.Failed
             "An error occurred during wallet registration"
             (Some RegisterWallet.NotAFunction);
         RegisterWallet.nr_status := 500 |} /\
  RegisterWallet.fetched
    (snd (Wallet.run
            (Wallet.backend (Returns (JObject [("message", JNumber 7)]))
               (Returns (Some Wallet.conflict))))) = [].
Proof.
  apply (register_wallet_fails_on_message_that_is_no_string
           (Wallet.backend (Returns (JObject [("message", JNumber 7)]))
              (Returns (Some Wallet.conflict)))
           (JObject [("message", JNumber 7)]));
    reflexivity.
Defined.

(** X13.  The back end is contacted at most once, and only for a
    complete request: all five required fields are truthy and [message] is
    a string.  The request goes by [POST] to [/auth/register-wallet] under
    the configured base address, or under [http://localhost:5010/api] when
    none is configured, and carries the six fields of the request as they
    came, [chainId] included. *)
Theorem register_wallet_forwards_complete_requests_only
  (E : RegisterWallet.Environment) (url : string)
  (init : RegisterWallet.RequestInit) :
  In (url, init) (RegisterWallet.fetched (snd (Wallet.run E))) ->
  RegisterWallet.fetched (snd (Wallet.run E)) = [(url, init)] /\
  url = RegisterWallet.apiUrl E ++ "/auth/register-wallet" /\
  RegisterWallet.method init = "POST" /\
  exists data,
    RegisterWallet.req_json E = Returns data /\
    RegisterWallet.body init = Wallet.forwarded data /\
    (forall k, In k Wallet.required ->
               truthy (RegisterWallet.field data k) = true) /\
    Wallet.is_string (RegisterWallet.field data "message") = true.
Proof.
  intros Hin.
  destruct (route_outcome E)
    as (r & _ & [(Hnone & _) | (data & Hreq & Hinc & Hs & Hf & _)]).
  - rewrite Hnone in Hin. destruct Hin.
  - rewrite Hf in Hin |- *. destruct Hin as [[= <- <-] | []].
    repeat (split; [reflexivity|]).
    exists data. repeat (split; [first [reflexivity | assumption]|]).
    split; [|assumption].
    intros k Hk. unfold Wallet.incomplete in Hinc.
    destruct (truthy (RegisterWallet.field data k)) eqn:Ht; [reflexivity|].
    assert (existsb (fun k => negb (truthy (RegisterWallet.field data k)))
              Wallet.required = true)
      by (apply existsb_exists; exists k; rewrite Ht; split;
          [assumption | reflexivity]).
    congruence.
Qed.

Lemma register_wallet_forwards_complete_requests_only_witness :
  RegisterWallet.fetched
    (snd (Wallet.run (Wallet.backend (Returns Wallet.sample)
                        (Returns (Some Wallet.conflict)))))
  = [("http://localhost:5010/api/auth/register-wallet",
      Wallet.init_for Wallet.sample)] /\
  RegisterWallet.body (Wallet.init_for Wallet.sample)
  = Wallet.forwarded Wallet.sample.
Proof.
  destruct (register_wallet_forwards_complete_requests_only
              (Wallet.backend (Returns Wallet.sample)
                 (Returns (Some Wallet.conflict)))
              "http://localhost:5010/api/auth/register-wallet"
              (Wallet.init_for Wallet.sample))
    as (Hf & _).
  - left. reflexivity.
  - split; [exact Hf | reflexivity].
Defined.

(** X14.  For a complete request, what the back end answers is passed on
    as it is: the parsed body, whatever it says, under the status of the
    back end, also when that status reports an error.  The body has to be
    other than [null], and the status one that a response with a body can
    have. *)
Theorem register_wallet_passes_answer_on
  (E : RegisterWallet.Environment) (data : JSValue)
  (response : RegisterWallet.Response) (result : JSValue) :
  RegisterWallet.req_json E = Returns data ->
  RegisterWallet.nullish data = false ->
  Wallet.incomplete data = false ->
  Wallet.is_string (RegisterWallet.field data "message") = true ->
  RegisterWallet.fetch E (Wallet.endpoint E) (Wallet.init_for data)
  = Returns (Some response) ->
  RegisterWallet.json response = Returns result ->
  RegisterWallet.nullish result = false ->
  (200 <= RegisterWallet.status response <= 599)%Z ->
  ~ In (RegisterWallet.status response) [204; 205; 304]%Z ->
  fst (Wallet.run E)
  = RegisterWallet.Value
      {| RegisterWallet.nr_body := RegisterWallet.Forwarded result;
         RegisterWallet.nr_status := RegisterWallet.status response |}.
Proof.
  intros Hreq Hobj Hinc Hs Hfetch Hj Hn Hrange Hbody.
  apply (route_forwarded E data Hreq Hobj Hinc Hs response Hfetch result _
           Hj Hn).
  unfold RegisterWallet.NextResponse_json, RegisterWallet.null_body_status.
  replace (200 <=? RegisterWallet.status response)%Z with true
    by (symmetry; apply Z.leb_le; lia).
  replace (RegisterWallet.status response <=? 599)%Z with true
    by (symmetry; apply Z.leb_le; lia).
  replace (RegisterWallet.status response =? 101)%Z with false
    by (symmetry; apply Z.eqb_neq; lia).
  replace (RegisterWallet.status response =? 103)%Z with false
    by (symmetry; apply Z.eqb_neq; lia).
  replace (RegisterWallet.status response =? 204)%Z with false
    by (symmetry; apply Z.eqb_neq; intros Heq; apply Hbody; rewrite Heq;
        cbn; auto).
  replace (RegisterWallet.status response =? 205)%Z with false
    by (symmetry; apply Z.eqb_neq; intros Heq; apply Hbody; rewrite Heq;
        cbn; auto).
  replace (RegisterWallet.status response =? 304)%Z with false
    by (symmetry; apply Z.eqb_neq; intros Heq; apply Hbody; rewrite Heq;
        cbn; auto).
  reflexivity.
Qed.

Lemma register_wallet_passes_answer_on_witness :
  fst (Wallet.run (Wallet.backend (Returns Wallet.sample)
                     (Returns (Some Wallet.conflict))))
  = RegisterWallet.Value
      {| RegisterWallet.nr_body :=
           RegisterWallet.Forwarded
             (JObject [("success", JBool false);
                       ("message", JString "Wallet already registered")]);
         RegisterWallet.nr_status := 409 |}.
Proof.
  apply (register_wallet_passes_answer_on
           (Wallet.backend (Returns Wallet.sample)
              (Returns (Some Wallet.conflict)))
           Wallet.sample Wallet.conflict
           (JObject [("success", JBool false);
                     ("message", JString "Wallet already registered")]));
    try reflexivity.
  - cbn. lia.
  - cbn. intros [H | [H | [H | []]]]; discriminate H.
Defined.


(** X16.  For a complete request the failures of the back end are
    answered as follows: a [fetch] that throws gives status 503 with
    [Error connecting to server]; a missing response, or a response whose
    body does not parse, gives status 502; a response whose body parses to
    [null] gives status 503, since reading [result.success] throws inside
    the [try] around the [fetch]. *)
Theorem register_wallet_reports_backend_failures
  (E : RegisterWallet.Environment) (data : JSValue) :
  RegisterWallet.req_json E = Returns data ->
  RegisterWallet.nullish data = false ->
  Wallet.incomplete data = false ->
  Wallet.is_string (RegisterWallet.field data "message") = true ->
  (forall e,
     RegisterWallet.fetch E (Wallet.endpoint E) (Wallet.init_for data)
     = Throws e ->
     Wallet.answered E data
       (RegisterWallet.Failed "Error connecting to server"
          (Some (RegisterWallet.Rejection e))) 503) /\
  (RegisterWallet.fetch E (Wallet.endpoint E) (Wallet.init_for data)
   = Returns None ->
   Wallet.answered E data
     (RegisterWallet.Failed "No response from server" None) 502) /\
  (forall response,
     RegisterWallet.fetch E (Wallet.endpoint E) (Wallet.init_for data)
     = Returns (Some response) ->
     (forall e,
        RegisterWallet.json response = Throws e ->
        Wallet.answered E data
          (RegisterWallet.Failed "Invalid response from server" None) 502) /\
     (forall result,
        RegisterWallet.json response = Returns result ->
        RegisterWallet.nullish result = true ->
        Wallet.answered E data
          (RegisterWallet.Failed "Error connecting to server"
             (Some RegisterWallet.CannotRead)) 503)).
Proof.
  intros Hreq Hobj Hinc Hs.
  split; [|split].
  - intros e Hf. exact (route_fetch_throws E data Hreq Hobj Hinc Hs e Hf).
  - intros Hf. exact (route_no_response E data Hreq Hobj Hinc Hs Hf).
  - intros response Hf. split.
    + intros e Hj.
      exact (route_unparsable E data Hreq Hobj Hinc Hs response Hf e Hj).
    + intros result Hj Hn.
      exact (route_unreadable E data Hreq Hobj Hinc Hs response Hf result
               Hj Hn).
Qed.

Lemma register_wallet_reports_backend_failures_witness :
  Wallet.answered
    (Wallet.backend (Returns Wallet.sample)
       (Returns (Some {| RegisterWallet.status := 200;
                         RegisterWallet.json := Returns JNull |})))
    Wallet.sample
    (RegisterWallet.Failed "Error connecting to server"
       (Some RegisterWallet.CannotRead)) 503.
Proof.
  destruct (register_wallet_reports_backend_failures
              (Wallet.backend (Returns Wallet.sample)
                 (Returns (Some {| RegisterWallet.status := 200;
                                   RegisterWallet.json := Returns JNull |})))
              Wallet.sample eq_refl eq_refl eq_refl eq_refl)
    as (_ & _ & Hanswered).
  exact (proj2 (Hanswered _ eq_refl) JNull eq_refl eq_refl).
Defined.

(** ** Properties of the protected route *)

Lemma decide_cases (P : ProtectedRoute.Props) (B : ProtectedRoute.Browser)
  (userRole needs : JSValue) :
  (ProtectedRoute.skipRoleCheck P = true /\
   ProtectedRoute.decide P B userRole needs
   = [ProtectedRoute.SetAuthChecked true]) \/
  (ProtectedRoute.skipRoleCheck P = false /\
   ProtectedRoute.allowNoRole P = false /\
   (ProtectedRoute.isValidRole B userRole = false \/ truthy needs = true) /\
   ProtectedRoute.decide P B userRole needs
   = [ProtectedRoute.SetAuthError
        (Some "Please complete your profile and select a role before continuing.");
      ProtectedRoute.Push "/profile"]) \/
  (ProtectedRoute.skipRoleCheck P = false /\
   ProtectedRoute.roles P <> [] /\
   ProtectedRoute.hasRequiredRole P userRole = false /\
   ProtectedRoute.decide P B userRole needs
   = [ProtectedRoute.SetAuthError
        (Some "You do not have permission to access this page.");
      ProtectedRoute.Push "/"]) \/
  (ProtectedRoute.skipRoleCheck P = false /\
   (ProtectedRoute.allowNoRole P = true \/
    (ProtectedRoute.isValidRole B userRole = true /\ truthy needs = false)) /\
   (ProtectedRoute.roles P = [] \/
    ProtectedRoute.hasRequiredRole P userRole = true) /\
   ProtectedRoute.decide P B userRole needs
   = [ProtectedRoute.SetAuthChecked true; ProtectedRoute.SetAuthError None]).
Proof.
  unfold ProtectedRoute.decide.
  destruct (ProtectedRoute.skipRoleCheck P); [left; split; reflexivity|].
  right.
  destruct (ProtectedRoute.isValidRole B userRole) eqn:Hv;
    destruct (truthy needs) eqn:Hn;
    destruct (ProtectedRoute.allowNoRole P) eqn:Ha; cbn;
    try (left; repeat split; auto; fail);
    right;
    (destruct (ProtectedRoute.roles P) as [|role0 rest] eqn:Hr; cbn;
     [right; repeat split; auto
     |destruct (ProtectedRoute.hasRequiredRole P userRole) eqn:Hh; cbn;
      [right; repeat split; auto
      |left; repeat split; auto; discriminate]]).
Qed.

Lemma resolve_prints (session : JSValue) (B : ProtectedRoute.Browser) :
  snd (ProtectedRoute.resolve session B) = [] \/
  snd (ProtectedRoute.resolve session B)
  = [ProtectedRoute.Error "Error parsing wallet user data:"].
Proof.
  unfold ProtectedRoute.resolve.
  destruct (ProtectedRoute.hasWalletAuth B && _)%bool; [|left; reflexivity].
  destruct (ProtectedRoute.JSON_parse B _) as [userData|e];
    [|right; reflexivity].
  destruct (RegisterWallet.nullish userData);
    [right; reflexivity | left; reflexivity].
Qed.

Ltac prefix_facts Hp Ha Hn :=
  split;
  [ unfold ProtectedRoute.pushes in *; rewrite !flat_map_app, Hp;
    reflexivity
  | split;
    [ intros s; unfold ProtectedRoute.after in *;
      rewrite !fold_left_app; cbn [fold_left]; rewrite Ha; reflexivity
    | split;
      [ intros b Hin; apply in_app_or in Hin;
        destruct Hin as [[H | []] | Hin]; [discriminate H|];
        apply in_app_or in Hin; destruct Hin as [Hin | Hin];
        [ exact (Hn b Hin) | cbn in Hin; intuition discriminate ]
      | ] ] ].

Ltac ends_with_decide P session B stored Hp Ha Hn :=
  destruct (ProtectedRoute.resolve session B)
    as [[userRole needs] printed] eqn:Hres;
  pose proof (resolve_prints session B) as Hprinted;
  rewrite Hres in Hprinted; cbn [fst snd] in *;
  exists ([ProtectedRoute.Log "ProtectedRoute: Checking auth sources"]
          ++ stored ++ printed)%list,
    (ProtectedRoute.decide P B userRole needs);
  (split; [rewrite <- !app_assoc; reflexivity|]);
  destruct Hprinted as [-> | ->];
  (prefix_facts Hp Ha Hn; right; right; split; [auto | reflexivity]).

(** The actions of a check: a prefix that neither redirects nor touches
    the state, then the end of one of the three ways through. *)
Lemma checkAuth_cases (P : ProtectedRoute.Props)
  (status : ProtectedRoute.Status) (session : JSValue)
  (B : ProtectedRoute.Browser) :
  exists prefix ending,
    ProtectedRoute.checkAuth P status session B = (prefix ++ ending)%list /\
    ProtectedRoute.pushes prefix = [] /\
    (forall s, ProtectedRoute.after s prefix = s) /\
    (forall b, ~ In (ProtectedRoute.SetAuthChecked b) prefix) /\
    ((status = ProtectedRoute.loading /\
      ProtectedRoute.hasWalletAuth B = false /\ ending = []) \/
     (status = ProtectedRoute.unauthenticated /\
      ProtectedRoute.hasWalletAuth B = false /\
      ProtectedRoute.isAuthPage B = false /\
      ending = [ProtectedRoute.Push "/auth/login"]) \/
     ((status = ProtectedRoute.authenticated \/
       ProtectedRoute.hasWalletAuth B = true \/
       (status = ProtectedRoute.unauthenticated /\
        ProtectedRoute.isAuthPage B = true)) /\
      ending
      = ProtectedRoute.decide P B
          (fst (fst (ProtectedRoute.resolve session B)))
          (snd (fst (ProtectedRoute.resolve session B))))).
Proof.
  unfold ProtectedRoute.checkAuth.
  set (stored := if (ProtectedRoute.is_status status
                       ProtectedRoute.authenticated && truthy session)%bool
                 then _ else _).
  assert (Hstored : ProtectedRoute.pushes stored = [] /\
                    (forall s, ProtectedRoute.after s stored = s) /\
                    (forall b, ~ In (ProtectedRoute.SetAuthChecked b) stored)).
  { subst stored. destruct (_ && _)%bool; cbn; repeat split; auto;
      intros b [H | []]; discriminate H. }
  destruct Hstored as (Hp & Ha & Hn). clearbody stored.
  destruct (ProtectedRoute.hasWalletAuth B) eqn:Hw;
    destruct status; cbn [ProtectedRoute.is_status andb negb].
  - ends_with_decide P session B stored Hp Ha Hn.
  - ends_with_decide P session B stored Hp Ha Hn.
  - ends_with_decide P session B stored Hp Ha Hn.
  - ends_with_decide P session B stored Hp Ha Hn.
  - exists ([ProtectedRoute.Log "ProtectedRoute: Checking auth sources"]
            ++ stored
            ++ [ProtectedRoute.Log
                  "ProtectedRoute: Authentication status is loading"])%list,
      [].
    split; [rewrite app_nil_r; reflexivity|].
    prefix_facts Hp Ha Hn. left. repeat split.
  - destruct (ProtectedRoute.isAuthPage B) eqn:Hpage; cbn [andb negb].
    + ends_with_decide P session B stored Hp Ha Hn.
    + exists ([ProtectedRoute.Log "ProtectedRoute: Checking auth sources"]
              ++ stored
              ++ [ProtectedRoute.Log
                    "ProtectedRoute: User is not authenticated, redirecting to login"])%list,
        [ProtectedRoute.Push "/auth/login"].
      split; [rewrite <- !app_assoc; reflexivity|].
      prefix_facts Hp Ha Hn. right. left. repeat split.
Qed.

Lemma decide_grants (P : ProtectedRoute.Props) (B : ProtectedRoute.Browser)
  (userRole needs : JSValue) :
  In (ProtectedRoute.SetAuthChecked true)
     (ProtectedRoute.decide P B userRole needs) ->
  ProtectedRoute.pushes (ProtectedRoute.decide P B userRole needs) = [] /\
  (forall s,
     ProtectedRoute.authChecked
       (ProtectedRoute.after s (ProtectedRoute.decide P B userRole needs))
     = true) /\
  (ProtectedRoute.skipRoleCheck P = false ->
   (ProtectedRoute.allowNoRole P = true \/
    (ProtectedRoute.isValidRole B userRole = true /\ truthy needs = false)) /\
   (ProtectedRoute.roles P = [] \/
    ProtectedRoute.hasRequiredRole P userRole = true)).
Proof.
  destruct (decide_cases P B userRole needs)
    as [(Hskip & ->) | [(Hskip & _ & _ & ->) | [(Hskip & _ & _ & ->)
       | (Hskip & Hvalid & Hrole & ->)]]]; cbn; intros Hin.
  - split; [reflexivity|]. split; [reflexivity|]. intros Hf. congruence.
  - intuition discriminate.
  - intuition discriminate.
  - split; [reflexivity|]. split; [reflexivity|]. intros _.
    split; assumption.
Qed.

(** X17.  A visitor who is not signed in and has no wallet credentials
    stored is sent to [/auth/login] from every page whose path contains
    neither [/auth/login] nor [/auth/register]; the check does nothing
    else, and the component keeps showing the spinner. *)
Theorem stranger_is_sent_to_login
  (P : ProtectedRoute.Props) (session : JSValue)
  (B : ProtectedRoute.Browser) :
  ProtectedRoute.hasWalletAuth B = false ->
  ProtectedRoute.isAuthPage B = false ->
  ProtectedRoute.checkAuth P ProtectedRoute.unauthenticated session B
  = [ProtectedRoute.Log "ProtectedRoute: Checking auth sources";
     ProtectedRoute.Log
       "ProtectedRoute: User is not authenticated, redirecting to login";
     ProtectedRoute.Push "/auth/login"] /\
  ProtectedRoute.render ProtectedRoute.unauthenticated
    (ProtectedRoute.after ProtectedRoute.initial
       (ProtectedRoute.checkAuth P ProtectedRoute.unauthenticated session B))
  = ProtectedRoute.Spinner.
Proof.
  intros Hw Hpage. unfold ProtectedRoute.checkAuth.
  rewrite Hw, Hpage. cbn. split; reflexivity.
Qed.

Lemma stranger_is_sent_to_login_witness :
  ProtectedRoute.pushes
    (ProtectedRoute.checkAuth ProtectedRoute.farmers_only
       ProtectedRoute.unauthenticated JNull
       (ProtectedRoute.stranger "/products/42"))
  = ["/auth/login"].
Proof.
  rewrite (proj1 (stranger_is_sent_to_login ProtectedRoute.farmers_only
                    JNull (ProtectedRoute.stranger "/products/42")
                    eq_refl eq_refl)).
  reflexivity.
Defined.

(** X18.  When a check marks the route as checked and [skipRoleCheck] is
    off, the role the check settled on is one of the required [roles],
    unless none is required, and, unless [allowNoRole] is on, that role is
    valid and no role selection is pending.  Such a check redirects
    nowhere. *)
Theorem access_granted_only_with_role
  (P : ProtectedRoute.Props) (status : ProtectedRoute.Status)
  (session : JSValue) (B : ProtectedRoute.Browser) :
  In (ProtectedRoute.SetAuthChecked true)
     (ProtectedRoute.checkAuth P status session B) ->
  ProtectedRoute.skipRoleCheck P = false ->
  let userRole := fst (fst (ProtectedRoute.resolve session B)) in
  let needsRoleSelection := snd (fst (ProtectedRoute.resolve session B)) in
  ProtectedRoute.pushes (ProtectedRoute.checkAuth P status session B) = [] /\
  (ProtectedRoute.roles P = [] \/
   exists role, userRole = JString role /\ In role (ProtectedRoute.roles P)) /\
  (ProtectedRoute.allowNoRole P = true \/
   (ProtectedRoute.isValidRole B userRole = true /\
    truthy needsRoleSelection = false)).
Proof.
  intros Hin Hskip userRole needs.
  destruct (checkAuth_cases P status session B)
    as (prefix & ending & Heq & Hp & _ & Hn & Hend).
  rewrite Heq in Hin |- *. apply in_app_or in Hin.
  destruct Hin as [Hin | Hin]; [destruct (Hn true Hin)|].
  destruct Hend as [(_ & _ & ->) | [(_ & _ & _ & ->) | (_ & ->)]].
  - destruct Hin.
  - destruct Hin as [H | []]. discriminate H.
  - destruct (decide_grants P B _ _ Hin) as (Hpush & _ & Hok).
    destruct (Hok Hskip) as (Hvalid & Hrole).
    unfold ProtectedRoute.pushes in *. rewrite flat_map_app, Hp, Hpush.
    split; [reflexivity|]. split; [|exact Hvalid].
    destruct Hrole as [Hnone | Hhas]; [left; assumption|]. right.
    unfold ProtectedRoute.hasRequiredRole in Hhas. fold userRole in Hhas.
    destruct userRole as [| | | |role| |];
      try (rewrite Bool.andb_false_r in Hhas; discriminate Hhas).
    apply andb_prop in Hhas. destruct Hhas as (_ & Hex).
    apply existsb_exists in Hex. destruct Hex as (r & Hr & Heqb).
    apply String.eqb_eq in Heqb. subst r. exists role. split;
      [reflexivity | assumption].
Qed.

Lemma access_granted_only_with_role_witness :
  ProtectedRoute.pushes
    (ProtectedRoute.checkAuth ProtectedRoute.farmers_only
       ProtectedRoute.unauthenticated JNull ProtectedRoute.wallet_visitor)
  = [] /\
  (ProtectedRoute.roles ProtectedRoute.farmers_only = [] \/
   exists role,
     fst (fst (ProtectedRoute.resolve JNull ProtectedRoute.wallet_visitor))
     = JString role /\
     In role (ProtectedRoute.roles ProtectedRoute.farmers_only)) /\
  (ProtectedRoute.allowNoRole ProtectedRoute.farmers_only = true \/
   (ProtectedRoute.isValidRole ProtectedRoute.wallet_visitor
      (fst (fst (ProtectedRoute.resolve JNull ProtectedRoute.wallet_visitor)))
    = true /\
    truthy
      (snd (fst (ProtectedRoute.resolve JNull ProtectedRoute.wallet_visitor)))
    = false)).
Proof.
  apply (access_granted_only_with_role ProtectedRoute.farmers_only
           ProtectedRoute.unauthenticated JNull
           ProtectedRoute.wallet_visitor).
  - right. left. reflexivity.
  - reflexivity.
Defined.

(** X19.  A check redirects at most once, to [/auth/login], [/profile] or
    [/], and a check that redirects does not mark the route as checked:
    the state variable [authChecked] stays as it was.  With
    [skipRoleCheck] on, the only redirect left is the one to
    [/auth/login]. *)
Theorem redirect_leaves_route_unchecked
  (P : ProtectedRoute.Props) (status : ProtectedRoute.Status)
  (session : JSValue) (B : ProtectedRoute.Browser) (s : ProtectedRoute.State) :
  let actions := ProtectedRoute.checkAuth P status session B in
  (ProtectedRoute.pushes actions = [] \/
   (In (ProtectedRoute.pushes actions) [["/auth/login"]; ["/profile"]; ["/"]] /\
    ProtectedRoute.authChecked (ProtectedRoute.after s actions)
    = ProtectedRoute.authChecked s /\
    (forall b, ~ In (ProtectedRoute.SetAuthChecked b) actions))) /\
  (ProtectedRoute.skipRoleCheck P = true ->
   ProtectedRoute.pushes actions = [] \/
   ProtectedRoute.pushes actions = ["/auth/login"]).
Proof.
  intros actions. subst actions.
  destruct (checkAuth_cases P status session B)
    as (prefix & ending & -> & Hp & Ha & Hn & Hend).
  unfold ProtectedRoute.pushes in *. rewrite flat_map_app, Hp.
  unfold ProtectedRoute.after in *. rewrite fold_left_app, (Ha s).
  assert (Hsplit :
           forall b ending',
             (forall b', ~ In (ProtectedRoute.SetAuthChecked b') ending') ->
             ~ In (ProtectedRoute.SetAuthChecked b) (prefix ++ ending')%list).
  { intros b ending' He Hin. apply in_app_or in Hin.
    destruct Hin as [Hin | Hin]; [exact (Hn b Hin) | exact (He b Hin)]. }
  destruct Hend as [(_ & _ & ->) | [(_ & _ & _ & ->) | (_ & ->)]].
  - split; left; reflexivity.
  - split; [right | intros _; right; reflexivity].
    split; [left; reflexivity|]. split; [reflexivity|].
    intros b. apply Hsplit. intros b' [H | []]. discriminate H.
  - destruct (decide_cases P B
                (fst (fst (ProtectedRoute.resolve session B)))
                (snd (fst (ProtectedRoute.resolve session B))))
      as [(Hskip & ->) | [(Hskip & _ & _ & ->) | [(Hskip & _ & _ & ->)
         | (Hskip & _ & _ & ->)]]]; cbn.
    + split; left; reflexivity.
    + split; [right | intros H; congruence].
      split; [right; left; reflexivity|]. split; [reflexivity|].
      intros b. apply Hsplit. intros b' Hin. cbn in Hin.
      intuition discriminate.
    + split; [right | intros H; congruence].
      split; [right; right; left; reflexivity|]. split; [reflexivity|].
      intros b. apply Hsplit. intros b' Hin. cbn in Hin.
      intuition discriminate.
    + split; [left; reflexivity | intros H; congruence].
Qed.

Lemma redirect_leaves_route_unchecked_witness :
  ProtectedRoute.skipRoleCheck
    {| ProtectedRoute.roles := ["FARMER"];
       ProtectedRoute.skipRoleCheck := true;
       ProtectedRoute.allowNoRole := false |} = true /\
  (ProtectedRoute.pushes
     (ProtectedRoute.checkAuth
        {| ProtectedRoute.roles := ["FARMER"];
           ProtectedRoute.skipRoleCheck := true;
           ProtectedRoute.allowNoRole := false |}
        ProtectedRoute.authenticated (JObject [])
        (ProtectedRoute.stranger "/profile")) = [] \/
   ProtectedRoute.pushes
     (ProtectedRoute.checkAuth
        {| ProtectedRoute.roles := ["FARMER"];
           ProtectedRoute.skipRoleCheck := true;
           ProtectedRoute.allowNoRole := false |}
        ProtectedRoute.authenticated (JObject [])
        (ProtectedRoute.stranger "/profile")) = ["/auth/login"]).
Proof.
  split; [reflexivity|].
  apply (proj2 (redirect_leaves_route_unchecked
                  {| ProtectedRoute.roles := ["FARMER"];
                     ProtectedRoute.skipRoleCheck := true;
                     ProtectedRoute.allowNoRole := false |}
                  ProtectedRoute.authenticated (JObject [])
                  (ProtectedRoute.stranger "/profile")
                  ProtectedRoute.initial)).
  reflexivity.
Defined.

(** X20.  The children are rendered only under an authenticated session.
    A visitor known by wallet credentials alone, whose check has marked
    the route as checked, is shown nothing: while [useSession] reports
    [unauthenticated] the component returns [null]. *)
Theorem children_need_a_session
  (P : ProtectedRoute.Props) (status : ProtectedRoute.Status)
  (session : JSValue) (B : ProtectedRoute.Browser) (s : ProtectedRoute.State) :
  (ProtectedRoute.render status s = ProtectedRoute.Children ->
   status = ProtectedRoute.authenticated /\
   ProtectedRoute.authChecked s = true) /\
  (status = ProtectedRoute.unauthenticated ->
   In (ProtectedRoute.SetAuthChecked true)
      (ProtectedRoute.checkAuth P status session B) ->
   ProtectedRoute.render status
     (ProtectedRoute.after s (ProtectedRoute.checkAuth P status session B))
   = ProtectedRoute.Nothing).
Proof.
  split.
  - unfold ProtectedRoute.render.
    destruct status; cbn; destruct (ProtectedRoute.authChecked s); cbn;
      intros H; try discriminate H. split; reflexivity.
  - intros -> Hin.
    destruct (checkAuth_cases P ProtectedRoute.unauthenticated session B)
      as (prefix & ending & Heq & _ & Ha & Hn & Hend).
    rewrite Heq in Hin |- *. apply in_app_or in Hin.
    destruct Hin as [Hin | Hin]; [destruct (Hn true Hin)|].
    unfold ProtectedRoute.after in *. rewrite fold_left_app, (Ha s).
    destruct Hend as [(H & _) | [(_ & _ & _ & ->) | (_ & ->)]].
    + discriminate H.
    + destruct Hin as [H | []]. discriminate H.
    + destruct (decide_grants P B _ _ Hin) as (_ & Hchecked & _).
      unfold ProtectedRoute.render. cbn [ProtectedRoute.is_status orb].
      unfold ProtectedRoute.after in Hchecked. rewrite (Hchecked s).
      reflexivity.
Qed.

Lemma children_need_a_session_witness :
  ProtectedRoute.render ProtectedRoute.unauthenticated
    (ProtectedRoute.after ProtectedRoute.initial
       (ProtectedRoute.checkAuth ProtectedRoute.farmers_only
          ProtectedRoute.unauthenticated JNull ProtectedRoute.wallet_visitor))
  = ProtectedRoute.Nothing.
Proof.
  apply (proj2 (children_need_a_session ProtectedRoute.farmers_only
                  ProtectedRoute.unauthenticated JNull
                  ProtectedRoute.wallet_visitor ProtectedRoute.initial)).
  - reflexivity.
  - right. left. reflexivity.
Defined.
